(** * stressweb.py: accounting of the batched request dispatcher

    A shallow embedding of [src/stressweb.py] (class [PacketSender] and
    [main]) and the properties of its batching, counting and reporting code.

    Modelling choices, all visible in the definitions below:
    - Python [int] is [Z]; the [float] readings of [time.time()] and the
      results of true division are rationals ([Q]), i.e. rounding of the
      binary64 quotient is abstracted away, the guards and the
      division-by-zero behaviour are kept;
    - [str] is [string] (ASCII code points);
    - a Python computation either returns or raises: [result];
    - code that mutates [self] and prints is a state-and-error monad [M] over
      a [machine] holding the sender object, the output produced so far and
      the number of clock readings taken;
    - the network and the clock are an explicit environment ([world]). *)

From Stdlib Require Import ZArith QArith Lia Bool List Ascii String.
From stdpp Require Import base list strings gmap.

Close Scope Q_scope.
Open Scope string_scope.
Open Scope Z_scope.

(** ** Python values, exceptions and builtins used by the program *)

Module Py.

(** The exception classes that occur in the program or that its HTTP
    clients raise.  [ConnectionError], [TimeoutError] and
    [ClientResponseError] stand for the transport errors of [requests] and
    [aiohttp] (refused connection, DNS or TLS failure; expired timeout;
    malformed response). *)
Inductive exception : Set :=
| ConnectionError
| TimeoutError
| ClientResponseError
| UnboundLocalError
| ValueError
| TypeError
| ZeroDivisionError
| SystemExit
| CancelledError.

(** [isinstance(e, Exception)]: [SystemExit] and [asyncio.CancelledError]
    derive from [BaseException] only. *)
Definition is_Exception (e : exception) : bool :=
  match e with
  | SystemExit | CancelledError => false
  | _ => true
  end.

Inductive result (A : Type) : Type :=
| Returned (a : A)
| Raised (e : exception).
Arguments Returned {A} a.
Arguments Raised {A} e.

Definition bind {A B} (r : result A) (k : A -> result B) : result B :=
  match r with
  | Returned a => k a
  | Raised e => Raised e
  end.

(** [try: body  except Exception: handler] *)
Definition try_except_Exception {A} (body handler : result A) : result A :=
  match body with
  | Returned a => Returned a
  | Raised e => if is_Exception e then handler else Raised e
  end.

(** The objects a request attempt can hand to [asyncio.gather]: a [bool],
    [None], or (with [return_exceptions=True]) an exception object. *)
Inductive value : Set :=
| VBool (b : bool)
| VNone
| VExc (e : exception).

(** [r is True] *)
Definition is_True (v : value) : bool :=
  match v with
  | VBool true => true
  | _ => false
  end.

(** [sum(...)] over integers. *)
Definition sum (l : list Z) : Z := fold_left Z.add l 0.

(** [str.upper()] on ASCII code points: [a]..[z] go to [A]..[Z].  The
    mapping of other Unicode letters is not modelled. *)
Definition upper_char (c : ascii) : ascii :=
  let n := N_of_ascii c in
  if ((97 <=? n) && (n <=? 122))%N then ascii_of_N (n - 32) else c.

Fixpoint upper (s : string) : string :=
  match s with
  | EmptyString => EmptyString
  | String c s' => String (upper_char c) (upper s')
  end.

(** [range(start, stop, step)]: the loop [i = start; while i < stop:
    yield i; i += step] for a positive step (mirrored for a negative one),
    and [ValueError] for a zero step.  [fuel] bounds the number of
    iterations; [range] supplies enough of it (lemmas [range_up_seq] and
    [range_down_seq]). *)
Fixpoint range_up (fuel : nat) (i stop step : Z) : list Z :=
  match fuel with
  | O => []
  | S fuel' =>
      if i <? stop then i :: range_up fuel' (i + step) stop step else []
  end.

Fixpoint range_down (fuel : nat) (i stop step : Z) : list Z :=
  match fuel with
  | O => []
  | S fuel' =>
      if stop <? i then i :: range_down fuel' (i + step) stop step else []
  end.

Definition range (start stop step : Z) : result (list Z) :=
  if step =? 0 then Raised ValueError
  else if 0 <? step
       then Returned (range_up (Z.to_nat (stop - start)) start stop step)
       else Returned (range_down (Z.to_nat (start - stop)) start stop step).

(** [range(stop)] *)
Definition range1 (stop : Z) : list Z :=
  range_up (Z.to_nat stop) 0 stop 1.

(** [a / b] (true division): [ZeroDivisionError] on a zero divisor.  The
    quotient is the exact rational; the rounding to a [float], and the
    [OverflowError] of an integer operand beyond the range of a [float], are
    not modelled. *)
Definition truediv (a b : Q) : result Q :=
  if Qeq_bool b 0 then Raised ZeroDivisionError else Returned (a / b)%Q.

(** [x or default] for an optional dict: [None] and the empty dict are
    falsy. *)
Definition dict_or (x : option (gmap string string))
    (default : gmap string string) : gmap string string :=
  match x with
  | None => default
  | Some d => if decide (d = ∅) then default else d
  end.

End Py.

Export Py.

(** ** The environment: HTTP capability and clock *)

(** The ways a call of the HTTP client ([requests.get/post],
    [session.get/post]) fails: the transport fails, the timeout expires, the
    response is malformed; or, for the asynchronous client, the task is
    cancelled while it awaits the call. *)
Inductive http_failure : Set :=
| ConnectionFailed
| TimedOut
| MalformedResponse
| TaskCancelled.

(** The exception a failed call raises. *)
Definition raised_by (f : http_failure) : exception :=
  match f with
  | ConnectionFailed => ConnectionError
  | TimedOut => TimeoutError
  | MalformedResponse => ClientResponseError
  | TaskCancelled => CancelledError
  end.

(** What one call of the HTTP client does: it delivers a response with a
    status code, or it fails and raises. *)
Inductive http_behaviour : Set :=
| Responds (status : Z)
| Throws (f : http_failure).

(** [http k] is the behaviour met by the attempt with index [k];
    [clock r] is the [r]-th reading of [time.time()]. *)
Record world : Type := mkWorld {
  http : Z -> http_behaviour;
  clock : nat -> Q
}.

(** ** Output of the program *)

Inductive line : Type :=
| Starting (target : string)
| Sending (n c : Z)
| Progress (sent total : Z) (percent : Q)
| StatsHeader
| TargetURL (target : string)
| TotalSent (n : Z)
| Successful (n : Z) (percent : Q)
| Failed (n : Z) (percent : Q)
| TotalTime (seconds : Q)
| AverageSpeed (per_second : Q)
| StatsFooter.

(** Observable effects, in program order: a printed line, the creation of
    the connector with its limit, the start of the attempt with index [k]. *)
Inductive event : Type :=
| Print (l : line)
| Connector (limit : Z)
| Attempt (k : Z).

(** ** class PacketSender *)

Record PacketSender : Type := mkPacketSender {
  url : string;
  num_packets : Z;
  concurrency : Z;
  method : string;
  data : option string;
  headers : gmap string string;
  sent_packets : Z;
  success_packets : Z;
  failed_packets : Z;
  start_time : option Q;
  end_time : option Q
}.

Definition set_sent_packets (s : PacketSender) (v : Z) : PacketSender :=
  mkPacketSender (url s) (num_packets s) (concurrency s) (method s) (data s)
    (headers s) v (success_packets s) (failed_packets s)
    (start_time s) (end_time s).

Definition set_success_packets (s : PacketSender) (v : Z) : PacketSender :=
  mkPacketSender (url s) (num_packets s) (concurrency s) (method s) (data s)
    (headers s) (sent_packets s) v (failed_packets s)
    (start_time s) (end_time s).

Definition set_failed_packets (s : PacketSender) (v : Z) : PacketSender :=
  mkPacketSender (url s) (num_packets s) (concurrency s) (method s) (data s)
    (headers s) (sent_packets s) (success_packets s) v
    (start_time s) (end_time s).

Definition set_start_time (s : PacketSender) (v : option Q) : PacketSender :=
  mkPacketSender (url s) (num_packets s) (concurrency s) (method s) (data s)
    (headers s) (sent_packets s) (success_packets s) (failed_packets s)
    v (end_time s).

Definition set_end_time (s : PacketSender) (v : option Q) : PacketSender :=
  mkPacketSender (url s) (num_packets s) (concurrency s) (method s) (data s)
    (headers s) (sent_packets s) (success_packets s) (failed_packets s)
    (start_time s) v.

(** [PacketSender.__init__] *)
Definition __init__ (url : string) (num_packets concurrency : Z)
    (method : string) (data : option string)
    (headers : option (gmap string string)) : PacketSender :=
  {| url := url;
     num_packets := num_packets;
     concurrency := concurrency;
     method := upper method;
     data := data;
     headers := dict_or headers {[ "User-Agent" := "StressTest/1.0" ]};
     sent_packets := 0;
     success_packets := 0;
     failed_packets := 0;
     start_time := None;
     end_time := None |}.

(** ** One request attempt *)

#[global] Instance result_ret : MRet result := λ A a, Returned a.
#[global] Instance result_bind : MBind result := λ A B k r, Py.bind r k.
#[global] Instance result_fmap : FMap result :=
  λ A B f r, Py.bind r (λ a, Returned (f a)).

(** The HTTP client call: the status code of the response, or the raise. *)
Definition request (h : http_behaviour) : result Z :=
  match h with
  | Responds status => Returned status
  | Throws f => Raised (raised_by f)
  end.

(** Reading the local variable [response], unbound when no branch assigned
    it. *)
Definition load_local (v : option Z) : result Z :=
  match v with
  | Some x => Returned x
  | None => Raised UnboundLocalError
  end.

(** [PacketSender.send_single_packet] *)
Definition send_single_packet (self : PacketSender) (h : http_behaviour)
    : result value :=
  try_except_Exception
    (response ←
       (if (method self =? "GET")%string then Some <$> request h
        else if (method self =? "POST")%string then Some <$> request h
        else Returned None);
     status_code ← load_local response;
     if status_code <? 400 then Returned (VBool true)
     else Returned (VBool false))
    (Returned (VBool false)).

(** [PacketSender.send_single_packet_async] *)
Definition send_single_packet_async (self : PacketSender)
    (h : http_behaviour) : result value :=
  try_except_Exception
    (if (method self =? "GET")%string then
       status ← request h; Returned (VBool (status <? 400))
     else if (method self =? "POST")%string then
       status ← request h; Returned (VBool (status <? 400))
     else Returned VNone)
    (Returned (VBool false)).

(** [asyncio.gather] with [return_exceptions=True]: one result per task,
    in task order; a task that raised (here: a cancelled one, every
    [Exception] being handled in the attempt) contributes its exception
    object. *)
Definition gather (tasks : list (result value)) : list value :=
  map (λ t, match t with Returned v => v | Raised e => VExc e end) tasks.

(** ** The state-and-error monad of the stateful methods *)

Record machine : Type := mkMachine {
  self : PacketSender;
  out : list event;
  ticks : nat
}.

(** A method body: from a machine to the machine it leaves behind (also when
    it raises: mutations and output before the raise stay) and its result. *)
Definition M (A : Type) : Type := machine -> machine * result A.

#[global] Instance M_ret : MRet M := λ A a m, (m, Returned a).
#[global] Instance M_bind : MBind M := λ A B k c m,
  match c m with
  | (m', Returned a) => k a m'
  | (m', Raised e) => (m', Raised e)
  end.

Definition lift {A} (r : result A) : M A := λ m, (m, r).

Definition get_self : M PacketSender := λ m, (m, Returned (self m)).

Definition modify (f : PacketSender -> PacketSender) : M unit :=
  λ m, (mkMachine (f (self m)) (out m) (ticks m), Returned tt).

Definition emits (es : list event) : M unit :=
  λ m, (mkMachine (self m) (out m ++ es) (ticks m), Returned tt).

Definition print (l : line) : M unit := emits [Print l].

(** [for x in l: body x] *)
Fixpoint for_each {A} (l : list A) (body : A -> M unit) : M unit :=
  match l with
  | [] => mret tt
  | x :: l' => body x;; for_each l' body
  end.

Section Program.

Variable w : world.

(** [time.time()] *)
Definition time_time : M Q :=
  λ m, (mkMachine (self m) (out m) (S (ticks m)), Returned (clock w (ticks m))).

(** [self.sent_packets / duration if duration > 0 else 0] *)
Definition packets_per_second (sent : Z) (duration : Q) : result Q :=
  if negb (Qle_bool duration 0) then truediv (inject_Z sent) duration
  else Returned 0%Q.

(** [self.end_time - self.start_time] *)
Definition elapsed (s : PacketSender) : result Q :=
  match end_time s, start_time s with
  | Some t1, Some t0 => Returned (t1 - t0)%Q
  | _, _ => Raised TypeError
  end.

(** [PacketSender.print_stats] *)
Definition print_stats : M unit :=
  s ← get_self;
  duration ← lift (elapsed s);
  pps ← lift (packets_per_second (sent_packets s) duration);
  print StatsHeader;;
  print (TargetURL (url s));;
  print (TotalSent (sent_packets s));;
  ok ← lift (truediv (inject_Z (success_packets s))
                     (inject_Z (sent_packets s)));
  print (Successful (success_packets s) (ok * 100)%Q);;
  ko ← lift (truediv (inject_Z (failed_packets s))
                     (inject_Z (sent_packets s)));
  print (Failed (failed_packets s) (ko * 100)%Q);;
  print (TotalTime duration);;
  print (AverageSpeed pps);;
  print StatsFooter.

(** The results of one batch: the tasks of the attempts [i .. i +
    current_batch - 1], gathered. *)
Definition batch_results (s : PacketSender) (i current_batch : Z)
    : list value :=
  gather (map (λ j, send_single_packet_async s (http w (i + j)))
              (range1 current_batch)).

(** [sum(1 for r in results if r is True)] and
    [sum(1 for r in results if r is not True)] *)
Definition count_True (results : list value) : Z :=
  sum (map (λ _, 1) (List.filter is_True results)).

Definition count_not_True (results : list value) : Z :=
  sum (map (λ _, 1) (List.filter (λ r, negb (is_True r)) results)).

(** [min(batch_size, self.num_packets - i)] *)
Definition current_batch_size (batch_size num_packets i : Z) : Z :=
  Z.min batch_size (num_packets - i).

(** The body of the loop of [send_batch_async], for the offset [i]. *)
Definition batch (batch_size i : Z) : M unit :=
  s ← get_self;
  let current_batch := current_batch_size batch_size (num_packets s) i in
  emits (map (λ j, Attempt (i + j)) (range1 current_batch));;
  let results := batch_results s i current_batch in
  modify (λ s, set_sent_packets s (sent_packets s + current_batch));;
  modify (λ s, set_success_packets s
                 (success_packets s + count_True results));;
  modify (λ s, set_failed_packets s
                 (failed_packets s + count_not_True results));;
  s ← get_self;
  ratio ← lift (truediv (inject_Z (sent_packets s))
                        (inject_Z (num_packets s)));
  print (Progress (sent_packets s) (num_packets s) (ratio * 100)%Q).

(** [PacketSender.send_batch_async] *)
Definition send_batch_async (batch_size : Z) : M unit :=
  t ← time_time;
  modify (λ s, set_start_time s (Some t));;
  s ← get_self;
  print (Starting (url s));;
  print (Sending (num_packets s) (concurrency s));;
  emits [Connector (concurrency s)];;
  offsets ← lift (range 0 (num_packets s) batch_size);
  for_each offsets (batch batch_size);;
  t ← time_time;
  modify (λ s, set_end_time s (Some t));;
  print_stats.

(** *** main *)

(** The command line after [type=int] conversion; [None] for an option
    that was not given. *)
Record argv : Type := mkArgv {
  arg_url : string;
  arg_num_packets : option Z;
  arg_concurrency : option Z;
  arg_method : option string;
  arg_data : option string;
  arg_batch_size : option Z
}.

Record namespace : Type := mkNamespace {
  ns_url : string;
  ns_num_packets : Z;
  ns_concurrency : Z;
  ns_method : string;
  ns_data : option string;
  ns_batch_size : Z
}.

(** [choices=["GET", "POST"]] *)
Definition method_choices : list string := ["GET"; "POST"].

(** [parser.parse_args()]: defaults filled in; a method outside the
    choices makes argparse print its usage and exit. *)
Definition parse_args (a : argv) : result namespace :=
  let m := default "GET" (arg_method a) in
  if existsb (String.eqb m) method_choices then
    Returned (mkNamespace (arg_url a)
                (default 1000000 (arg_num_packets a))
                (default 100 (arg_concurrency a))
                m
                (arg_data a)
                (default 10000 (arg_batch_size a)))
  else Raised SystemExit.

(** [main]: the output produced and the way [main] ends. *)
Definition main (a : argv) : list event * result unit :=
  match parse_args a with
  | Raised e => ([], Raised e)
  | Returned args =>
      let sender :=
        __init__ (ns_url args) (ns_num_packets args) (ns_concurrency args)
                 (ns_method args) (ns_data args) None in
      let (m, r) := send_batch_async (ns_batch_size args)
                      (mkMachine sender [] 0) in
      (out m, r)
  end.

End Program.

(** ** The threaded dispatch *)

(** [ThreadPoolExecutor(max_workers=...)]: the constructor raises
    [ValueError] unless [max_workers] is positive. *)
Definition ThreadPoolExecutor (max_workers : Z) : result unit :=
  if max_workers <=? 0 then Raised ValueError else Returned tt.

(** [list(executor.map(fn, ...))]: the results of the calls in the order of
    the inputs; the first call (in that order) that raised makes the
    iteration raise. *)
Fixpoint executor_map (calls : list (result value)) : result (list value) :=
  match calls with
  | [] => Returned []
  | c :: calls' =>
      v ← c; vs ← executor_map calls'; Returned (v :: vs)
  end.

(** A result as a summand: [True] is 1 and [False] is 0; [None] and
    exception objects do not add to an [int]. *)
Definition int_of_value (v : value) : result Z :=
  match v with
  | VBool true => Returned 1
  | VBool false => Returned 0
  | _ => Raised TypeError
  end.

(** [sum(results)], adding from the left onto [acc]. *)
Fixpoint sum_values (acc : Z) (results : list value) : result Z :=
  match results with
  | [] => Returned acc
  | v :: results' => x ← int_of_value v; sum_values (acc + x) results'
  end.

Section Threaded.

Variable w : world.

(** [PacketSender.send_packets_threaded].  Its first banner line differs
    from the one of [send_batch_async] by one word only; [Starting] stands
    for either.  Every call handed to the pool is logged as an [Attempt]. *)
Definition send_packets_threaded : M unit :=
  t ← time_time w;
  modify (λ s, set_start_time s (Some t));;
  s ← get_self;
  print (Starting (url s));;
  print (Sending (num_packets s) (concurrency s));;
  lift (ThreadPoolExecutor (concurrency s));;
  emits (map Attempt (range1 (num_packets s)));;
  results ← lift (executor_map
                    (map (λ k, send_single_packet s (http w k))
                         (range1 (num_packets s))));
  modify (λ s, set_sent_packets s (num_packets s));;
  successes ← lift (sum_values 0 results);
  modify (λ s, set_success_packets s successes);;
  modify (λ s, set_failed_packets s (num_packets s - success_packets s));;
  t ← time_time w;
  modify (λ s, set_end_time s (Some t));;
  print_stats.

End Threaded.

(** ** Vocabulary of the properties *)

(** [ceil(n / b)] for a positive [b]. *)
Definition ceil_div (n b : Z) : Z := (n + b - 1) / b.

(** The offsets the loop runs over (none when [range] raises). *)
Definition loop_offsets (n b : Z) : list Z :=
  match range 0 n b with
  | Returned l => l
  | Raised _ => []
  end.

(** The machine at the entry of the loop: start time read and stored, the
    two banner lines printed, the connector created. *)
Definition entry (w : world) (m : machine) : machine :=
  mkMachine (set_start_time (self m) (Some (clock w (ticks m))))
            (out m ++ [Print (Starting (url (self m)))]
                   ++ [Print (Sending (num_packets (self m))
                                      (concurrency (self m)))]
                   ++ [Connector (concurrency (self m))])
            (S (ticks m)).

(** The machine after the first [k] iterations of the loop. *)
Definition after_folds (w : world) (b : Z) (m : machine) (k : nat) : machine :=
  fst (for_each (take k (loop_offsets (num_packets (self m)) b))
                (batch w b) m).

(** The machine after the loop, end time read and stored. *)
Definition finish (w : world) (m : machine) : machine :=
  mkMachine (set_end_time (self m) (Some (clock w (ticks m))))
            (out m) (S (ticks m)).

(** Everything of the sender but the three counters. *)
Definition config_of (s : PacketSender) : PacketSender :=
  mkPacketSender (url s) (num_packets s) (concurrency s) (method s) (data s)
    (headers s) 0 0 0 (start_time s) (end_time s).

(** A world for the examples: even attempts get a 200, odd ones a 500; the
    clock advances by two seconds per reading. *)
Definition example_world : world :=
  mkWorld (λ k, if Z.even k then Responds 200 else Responds 500)
          (λ r, inject_Z (2 * Z.of_nat r)).

(** The two-way classification of an attempt's result, as the fold of a
    batch applies it: [r is True] counts as a success, anything else as a
    failure. *)
Inductive Outcome : Set := Success | Failure.

Definition outcome_of (v : value) : Outcome :=
  if is_True v then Success else Failure.

(** A response was received and its status code is below 400.  A request is
    made only when the stored method is [GET] or [POST]. *)
Definition response_below_400 (s : PacketSender) (h : http_behaviour) : Prop :=
  (method s = "GET" \/ method s = "POST") /\
  exists status : Z, h = Responds status /\ status < 400.

(** What the call raises is an [Exception]: the transport errors and the
    timeouts of [requests] and [aiohttp] all are; the cancellation of the
    task is not, and is no behaviour of the HTTP client. *)
Definition raises_only_Exception (h : http_behaviour) : Prop :=
  forall f, h = Throws f -> is_Exception (raised_by f) = true.

(** The boolean reading of [response_below_400]. *)
Definition supported (s : PacketSender) : bool :=
  ((method s =? "GET") || (method s =? "POST"))%string.

Definition below_400 (s : PacketSender) (h : http_behaviour) : bool :=
  supported s && match h with Responds status => status <? 400 | Throws _ => false end.

(** ASCII lower-casing, to say that two strings differ by case only. *)
Definition lower_char (c : ascii) : ascii :=
  let n := N_of_ascii c in
  if ((65 <=? n) && (n <=? 90))%N then ascii_of_N (n + 32) else c.

Fixpoint lower (s : string) : string :=
  match s with
  | EmptyString => EmptyString
  | String c s' => String (lower_char c) (lower s')
  end.

Definition same_ignoring_case (s t : string) : Prop := lower s = lower t.

(** [appends P c]: running [c] only appends events to the output, all of
    them satisfying [P] (also when [c] raises). *)
Definition appends {A} (P : event -> Prop) (c : M A) : Prop :=
  forall m, exists es : list event,
    out (fst (c m)) = (out m ++ es)%list /\ Forall P es.

(** A configuration error on the command line: a method outside the
    choices, a non-positive concurrency, or a non-positive batch size. *)
Definition config_error (a : argv) : Prop :=
  ~ In (default "GET" (arg_method a)) method_choices \/
  default 100 (arg_concurrency a) <= 0 \/
  default 10000 (arg_batch_size a) <= 0.

(** [main] was stopped at startup: nothing was output and it raised. *)
Definition rejected_at_startup (r : list event * result unit) : Prop :=
  fst r = [] /\ exists e, snd r = Raised e.

(** The indices of the attempts in an output, in order. *)
Fixpoint attempts_of (es : list event) : list Z :=
  match es with
  | [] => []
  | Attempt k :: es' => k :: attempts_of es'
  | _ :: es' => attempts_of es'
  end.

(** The progress lines of an output, in order: what was sent, of how many. *)
Fixpoint progress_of (es : list event) : list (Z * Z) :=
  match es with
  | [] => []
  | Print (Progress sent total _) :: es' => (sent, total) :: progress_of es'
  | _ :: es' => progress_of es'
  end.

(** The result the gathered attempt [k] contributes, for a sender [s]. *)
Definition attempt_result (w : world) (s : PacketSender) (k : Z) : value :=
  match send_single_packet_async s (http w k) with
  | Returned v => v
  | Raised e => VExc e
  end.

(** Attempt [k] meets a response with a status code below 400. *)
Definition succeeds (w : world) (s : PacketSender) (k : Z) : bool :=
  below_400 s (http w k).

(** No call of the HTTP client is cut short by a cancellation. *)
Definition never_cancelled (w : world) : Prop :=
  forall k : Z, http w k <> Throws TaskCancelled.

(** The attempt indices of a run of [n] packets: 0, 1, ..., n - 1. *)
Definition indices (n : Z) : list Z := map Z.of_nat (seq 0 (Z.to_nat n)).

(** How many of the attempts 0 .. n - 1 meet a response below 400. *)
Definition successes (w : world) (s : PacketSender) (n : Z) : Z :=
  Z.of_nat (length (List.filter (succeeds w s) (indices n))).

(** An integer that true division can take as an operand: beyond the
    range of a [float] the division raises [OverflowError], which [truediv]
    does not model. *)
Definition float_range (x : Z) : Prop := Z.abs x < 2 ^ 1023.

(** ** The program on small inputs *)

Example range_25_10 : range 0 25 10 = Returned [0; 10; 20].
Proof. reflexivity. Qed.

Example range_zero_step : range 0 25 0 = Raised ValueError.
Proof. reflexivity. Qed.

Example range_negative_step : range 0 25 (-10) = Returned [].
Proof. reflexivity. Qed.

Example sizes_25_10 :
  map (current_batch_size 10 25) (loop_offsets 25 10) = [10; 10; 5].
Proof. reflexivity. Qed.

Example upper_mixed : upper "pOsT" = "POST".
Proof. reflexivity. Qed.

Example attempt_200 :
  send_single_packet_async (__init__ "http://h" 1 1 "GET" None None)
    (Responds 200) = Returned (VBool true).
Proof. reflexivity. Qed.

Example attempt_500 :
  send_single_packet_async (__init__ "http://h" 1 1 "GET" None None)
    (Responds 500) = Returned (VBool false).
Proof. reflexivity. Qed.

Example attempt_timeout :
  send_single_packet_async (__init__ "http://h" 1 1 "GET" None None)
    (Throws TimedOut) = Returned (VBool false).
Proof. reflexivity. Qed.

Example attempt_unsupported_sync :
  send_single_packet (__init__ "http://h" 1 1 "PUT" None None)
    (Responds 200) = Returned (VBool false).
Proof. reflexivity. Qed.

Example attempt_unsupported_async :
  send_single_packet_async (__init__ "http://h" 1 1 "PUT" None None)
    (Responds 200) = Returned VNone.
Proof. reflexivity. Qed.

(** [total=25, batch_size=10, concurrency=5] against a server that always
    answers 200: three progress lines, then the report. *)
Example run_25_10_5 :
  main (mkWorld (λ _, Responds 200) (λ r, inject_Z (2 * Z.of_nat r)))
       (mkArgv "http://h" (Some 25) (Some 5) None None (Some 10))
  = ([Print (Starting "http://h"); Print (Sending 25 5); Connector 5]
       ++ map Attempt [0; 1; 2; 3; 4; 5; 6; 7; 8; 9]
       ++ [Print (Progress 10 25 (1000 # 25))]
       ++ map Attempt [10; 11; 12; 13; 14; 15; 16; 17; 18; 19]
       ++ [Print (Progress 20 25 (2000 # 25))]
       ++ map Attempt [20; 21; 22; 23; 24]
       ++ [Print (Progress 25 25 (2500 # 25));
           Print StatsHeader; Print (TargetURL "http://h");
           Print (TotalSent 25);
           Print (Successful 25 (2500 # 25)); Print (Failed 0 (0 # 25));
           Print (TotalTime (2 # 1)); Print (AverageSpeed (25 # 2));
           Print StatsFooter],
     Returned tt)%list.
Proof. reflexivity. Qed.

(** ** Facts about the builtins *)

Lemma ceil_div_bounds (n b : Z) :
  0 < b -> b * (ceil_div n b - 1) < n <= b * ceil_div n b.
Proof.
  intros Hb. unfold ceil_div.
  pose proof (Z.div_mod (n + b - 1) b ltac:(lia)) as Hdm.
  pose proof (Z.mod_pos_bound (n + b - 1) b Hb) as Hm.
  lia.
Qed.

Lemma ceil_div_nonpos (n b : Z) : 0 < b -> n <= 0 -> ceil_div n b <= 0.
Proof.
  intros Hb Hn. pose proof (ceil_div_bounds n b Hb). nia.
Qed.

Lemma ceil_div_step (n b : Z) :
  0 < b -> ceil_div n b = 1 + ceil_div (n - b) b.
Proof.
  intros Hb. unfold ceil_div.
  replace (n + b - 1) with ((n - b + b - 1) + 1 * b) by lia.
  rewrite Z.div_add by lia. lia.
Qed.

Lemma sum_cons (x : Z) (l : list Z) : sum (x :: l) = x + sum l.
Proof.
  unfold sum. simpl.
  assert (H : forall l a, fold_left Z.add l a = a + fold_left Z.add l 0).
  { clear. induction l as [|y l IH]; intros a; cbn [fold_left]; [lia|].
    rewrite (IH (a + y)), (IH (0 + y)). lia. }
  apply H.
Qed.

Lemma sum_ones {A} (l : list A) : sum (map (λ _, 1) l) = Z.of_nat (length l).
Proof.
  induction l as [|x l IH]; [reflexivity|].
  cbn [map length]. rewrite sum_cons, IH. lia.
Qed.

(** The fuel given by [range] is enough: the loop stops on its test, and
    yields [i], [i + step], ... below [stop]. *)
Lemma range_up_seq (fuel : nat) (i stop step : Z) :
  0 < step -> (Z.to_nat (stop - i) <= fuel)%nat ->
  range_up fuel i stop step =
  map (λ k, i + Z.of_nat k * step)
      (seq 0 (Z.to_nat (ceil_div (stop - i) step))).
Proof.
  intros Hstep. revert i.
  induction fuel as [|fuel IH]; intros i Hfuel.
  - pose proof (ceil_div_nonpos (stop - i) step Hstep ltac:(lia)).
    replace (Z.to_nat (ceil_div (stop - i) step)) with O by lia.
    reflexivity.
  - cbn [range_up]. destruct (Z.ltb_spec i stop) as [Hlt|Hge].
    + rewrite (ceil_div_step (stop - i) step Hstep).
      pose proof (ceil_div_bounds (stop - i - step) step Hstep) as Hb.
      assert (0 <= ceil_div (stop - i - step) step) by nia.
      rewrite Z2Nat.inj_add by lia.
      change (Z.to_nat 1) with 1%nat. cbn [Nat.add seq map].
      f_equal; [lia|].
      rewrite IH by lia.
      rewrite <- seq_shift, map_map.
      replace (stop - (i + step)) with (stop - i - step) by lia.
      apply map_ext. intros k. lia.
    + pose proof (ceil_div_nonpos (stop - i) step Hstep ltac:(lia)).
      replace (Z.to_nat (ceil_div (stop - i) step)) with O by lia.
      reflexivity.
Qed.

Lemma range_down_opp (fuel : nat) (i stop step : Z) :
  range_down fuel i stop step
  = map Z.opp (range_up fuel (- i) (- stop) (- step)).
Proof.
  revert i. induction fuel as [|fuel IH]; intros i; [reflexivity|].
  cbn [range_down range_up].
  destruct (Z.ltb_spec stop i), (Z.ltb_spec (- i) (- stop)); try lia.
  - cbn [map]. rewrite IH. f_equal; [lia|]. do 2 f_equal. lia.
  - reflexivity.
Qed.

(** The same for a negative step: [i], [i + step], ... above [stop]. *)
Lemma range_down_seq (fuel : nat) (i stop step : Z) :
  step < 0 -> (Z.to_nat (i - stop) <= fuel)%nat ->
  range_down fuel i stop step =
  map (λ k, i + Z.of_nat k * step)
      (seq 0 (Z.to_nat (ceil_div (i - stop) (- step)))).
Proof.
  intros Hstep Hfuel.
  rewrite range_down_opp, range_up_seq by lia.
  rewrite map_map. replace (- stop - - i) with (i - stop) by lia.
  apply map_ext. intros k. lia.
Qed.

Lemma range_positive_step (n b : Z) :
  0 < b ->
  range 0 n b =
  Returned (map (λ k, Z.of_nat k * b) (seq 0 (Z.to_nat (ceil_div n b)))).
Proof.
  intros Hb. unfold range.
  destruct (Z.eqb_spec b 0); [lia|].
  destruct (Z.ltb_spec 0 b); [|lia].
  rewrite range_up_seq by lia.
  replace (n - 0) with n by lia. reflexivity.
Qed.

Lemma range1_seq (n : Z) : range1 n = map Z.of_nat (seq 0 (Z.to_nat n)).
Proof.
  unfold range1. rewrite range_up_seq by lia.
  unfold ceil_div. replace (n - 0 + 1 - 1) with n by lia.
  rewrite Z.div_1_r. apply map_ext. intros k. lia.
Qed.

Lemma range1_length (n : Z) : length (range1 n) = Z.to_nat n.
Proof. rewrite range1_seq, length_map, length_seq. reflexivity. Qed.

Lemma truediv_nonzero (a b : Z) :
  b <> 0 -> truediv (inject_Z a) (inject_Z b)
            = Returned (inject_Z a / inject_Z b)%Q.
Proof.
  intros Hb. unfold truediv.
  destruct (Qeq_bool (inject_Z b) 0) eqn:E; [|reflexivity].
  apply Qeq_bool_eq in E. unfold Qeq in E. simpl in E. lia.
Qed.

Lemma truediv_zero (a : Q) : truediv a (inject_Z 0) = Raised ZeroDivisionError.
Proof. reflexivity. Qed.

Lemma lookup_map_seq_lt {B} (f : nat -> B) (c k : nat) :
  (k < c)%nat -> map f (seq 0 c) !! k = Some (f k).
Proof.
  intros Hk. change (map f (seq 0 c)) with (f <$> seq 0 c).
  rewrite list_lookup_fmap, lookup_seq_lt by exact Hk. reflexivity.
Qed.

Lemma lookup_map_seq_Some {B} (f : nat -> B) (c k : nat) (x : B) :
  map f (seq 0 c) !! k = Some x -> (k < c)%nat /\ x = f k.
Proof.
  intros H. destruct (decide (k < c)%nat) as [Hk|Hk].
  - rewrite lookup_map_seq_lt in H by exact Hk. split; congruence.
  - apply lookup_lt_Some in H. rewrite length_map, length_seq in H. lia.
Qed.

(** ** The batch plan of [send_batch_async] *)

(** Summing the batch sizes along the offsets from [i] on gives what is
    left of [n] at [i]. *)
Lemma sum_sizes_from (n b : Z) (fuel : nat) (i : Z) :
  0 < b -> i <= n -> (Z.to_nat (n - i) <= fuel)%nat ->
  sum (map (current_batch_size b n) (range_up fuel i n b)) = n - i.
Proof.
  intros Hb. revert i. induction fuel as [|fuel IH]; intros i Hi Hfuel.
  - cbn. lia.
  - cbn [range_up]. destruct (Z.ltb_spec i n) as [Hlt|Hge]; [|cbn; lia].
    cbn [map]. rewrite sum_cons. unfold current_batch_size at 1.
    destruct (Z.le_gt_cases (i + b) n) as [Hfull|Hlast].
    + rewrite IH by lia. lia.
    + destruct fuel as [|fuel']; cbn [range_up map].
      * cbn. lia.
      * destruct (Z.ltb_spec (i + b) n); [lia|]. cbn. lia.
Qed.

(** The arithmetic of the plan: the offsets [range(0, n, b)] and the sizes
    [min(b, n - i)] cut [n] into [ceil(n / b)] consecutive pieces, all of
    size [b] but possibly the last, adding up to [n]. *)
Lemma batch_plan (n b : Z) :
  0 <= n -> 0 < b ->
  exists offsets : list Z,
    range 0 n b = Returned offsets /\
    let count := Z.of_nat (length offsets) in
    let sizes := map (current_batch_size b n) offsets in
    count = ceil_div n b /\
    b * (count - 1) < n <= b * count /\
    (forall (k : nat) (i : Z),
        offsets !! k = Some i -> i = Z.of_nat k * b) /\
    (forall k : nat, (S k < length offsets)%nat -> sizes !! k = Some b) /\
    (forall i : Z,
        last offsets = Some i ->
        last sizes = Some (Z.min b (n - i)) /\
        Z.min b (n - i) = n - b * (count - 1)) /\
    sum sizes = n.
Proof.
  intros Hn Hb.
  pose proof (ceil_div_bounds n b Hb) as Hceil.
  assert (Hc0 : 0 <= ceil_div n b) by nia.
  exists (map (λ k, Z.of_nat k * b) (seq 0 (Z.to_nat (ceil_div n b)))).
  split; [apply range_positive_step; exact Hb|].
  cbv zeta. rewrite length_map, length_seq, Z2Nat.id by exact Hc0.
  split; [reflexivity|]. split; [exact Hceil|].
  split; [|split; [|split]].
  - intros k i Hk. apply lookup_map_seq_Some in Hk. tauto.
  - intros k Hk. rewrite map_map, lookup_map_seq_lt by lia.
    f_equal. unfold current_batch_size. nia.
  - intros i Hlast. rewrite last_lookup, length_map, length_seq in Hlast.
    apply lookup_map_seq_Some in Hlast. destruct Hlast as [Hlt ->].
    rewrite map_map, last_lookup, length_map, length_seq.
    rewrite lookup_map_seq_lt by exact Hlt.
    unfold current_batch_size. split; [reflexivity|].
    replace (Z.of_nat (Init.Nat.pred (Z.to_nat (ceil_div n b))))
      with (ceil_div n b - 1) by lia.
    nia.
  - pose proof (range_positive_step n b Hb) as Hr. unfold range in Hr.
    destruct (Z.eqb_spec b 0); [lia|].
    destruct (Z.ltb_spec 0 b); [|lia].
    injection Hr as <-.
    rewrite sum_sizes_from by lia. lia.
Qed.

(** ** The loop of [send_batch_async], fold by fold *)

Ltac run_monad :=
  unfold print; unfold mbind, M_bind, mret, M_ret, lift, get_self, modify,
    emits, time_time; cbn.

Lemma count_results (results : list value) :
  count_True results + count_not_True results = Z.of_nat (length results).
Proof.
  unfold count_True, count_not_True. rewrite !sum_ones.
  induction results as [|r results IH]; [reflexivity|].
  cbn [List.filter length]. destruct (is_True r); cbn [negb length]; lia.
Qed.

Lemma batch_results_length (w : world) (s : PacketSender) (i cb : Z) :
  length (batch_results w s i cb) = Z.to_nat cb.
Proof.
  unfold batch_results, gather. rewrite !length_map. apply range1_length.
Qed.

(** One iteration of the loop, when [num_packets] is not zero. *)
Lemma batch_spec (w : world) (b i : Z) (m : machine) :
  num_packets (self m) <> 0 ->
  let s := self m in
  let cb := current_batch_size b (num_packets s) i in
  let results := batch_results w s i cb in
  let s' := mkPacketSender (url s) (num_packets s) (concurrency s) (method s)
              (data s) (headers s)
              (sent_packets s + cb)
              (success_packets s + count_True results)
              (failed_packets s + count_not_True results)
              (start_time s) (end_time s) in
  batch w b i m =
  (mkMachine s'
     ((out m ++ map (λ j, Attempt (i + j)) (range1 cb))
        ++ [Print (Progress (sent_packets s') (num_packets s')
                     (inject_Z (sent_packets s') / inject_Z (num_packets s')
                      * 100)%Q)])
     (ticks m),
   Returned tt).
Proof.
  intros Hn. unfold batch. run_monad.
  rewrite truediv_nonzero by exact Hn. reflexivity.
Qed.

Lemma for_each_app {A} (l1 l2 : list A) (body : A -> M unit) (m : machine) :
  for_each (l1 ++ l2) body m =
  match for_each l1 body m with
  | (m', Returned _) => for_each l2 body m'
  | (m', Raised e) => (m', Raised e)
  end.
Proof.
  revert m. induction l1 as [|x l1 IH]; intros m; [reflexivity|].
  cbn [app for_each]. unfold mbind, M_bind.
  destruct (body x m) as [m1 [[]|e]]; [apply IH|reflexivity].
Qed.

(** The loop over offsets within [0 .. num_packets - 1], for a positive
    batch size: it does not raise, adds the batch sizes to [sent_packets],
    adds as much to the two other counters together, and leaves the rest of
    the sender and the clock alone. *)
Lemma loop_spec (w : world) (b : Z) (l : list Z) (m : machine) :
  0 < b ->
  (forall i, In i l -> 0 <= i < num_packets (self m)) ->
  exists m' : machine,
    for_each l (batch w b) m = (m', Returned tt) /\
    config_of (self m') = config_of (self m) /\
    ticks m' = ticks m /\
    sent_packets (self m') =
      sent_packets (self m)
      + sum (map (current_batch_size b (num_packets (self m))) l) /\
    success_packets (self m') + failed_packets (self m') =
      success_packets (self m) + failed_packets (self m)
      + sum (map (current_batch_size b (num_packets (self m))) l).
Proof.
  intros Hb. revert m. induction l as [|i l IH]; intros m Hl.
  - exists m. cbn. repeat split; lia.
  - assert (Hi : 0 <= i < num_packets (self m)) by (apply Hl; left; reflexivity).
    cbn [for_each]. unfold mbind at 1, M_bind at 1.
    rewrite batch_spec by lia. cbv zeta.
    set (cb := current_batch_size b (num_packets (self m)) i).
    assert (Hcb : 0 < cb) by (unfold cb, current_batch_size; lia).
    set (results := batch_results w (self m) i cb).
    pose proof (count_results results) as Hcount.
    unfold results in Hcount at 3. rewrite batch_results_length in Hcount.
    match goal with
    | |- context [for_each l _ ?m1] =>
        destruct (IH m1) as (m' & Hrun & Hcfg & Hticks & Hsent & Hsf)
    end.
    { intros j Hj. cbn. apply Hl. right. exact Hj. }
    exists m'. split; [exact Hrun|].
    cbn in Hcfg, Hticks, Hsent, Hsf.
    cbn [map]. rewrite sum_cons. fold cb.
    repeat split; try assumption; lia.
Qed.

Lemma range_up_bounds (fuel : nat) (i stop step x : Z) :
  0 < step -> 0 <= i -> In x (range_up fuel i stop step) -> 0 <= x < stop.
Proof.
  intros Hstep. revert i. induction fuel as [|fuel IH]; intros i Hi Hin.
  - destruct Hin.
  - cbn [range_up] in Hin. destruct (Z.ltb_spec i stop); [|destruct Hin].
    destruct Hin as [<-|Hin]; [lia|]. apply (IH (i + step)); [lia|exact Hin].
Qed.

Lemma loop_offsets_positive (n b : Z) :
  0 < b -> loop_offsets n b = range_up (Z.to_nat (n - 0)) 0 n b.
Proof.
  intros Hb. unfold loop_offsets, range.
  destruct (Z.eqb_spec b 0); [lia|].
  destruct (Z.ltb_spec 0 b); [reflexivity|lia].
Qed.

Lemma loop_offsets_bounds (n b x : Z) :
  0 < b -> In x (loop_offsets n b) -> 0 <= x < n.
Proof.
  intros Hb. rewrite loop_offsets_positive by exact Hb.
  apply range_up_bounds; lia.
Qed.

Lemma range_loop_offsets (n b : Z) :
  b <> 0 -> range 0 n b = Returned (loop_offsets n b).
Proof.
  intros Hb. unfold loop_offsets, range.
  destruct (Z.eqb_spec b 0); [lia|]. destruct (0 <? b); reflexivity.
Qed.

(** *** The throughput guard and the report *)

Lemma packets_per_second_nonpositive (sent : Z) (d : Q) :
  (d <= 0)%Q -> packets_per_second sent d = Returned 0%Q.
Proof.
  intros Hd. unfold packets_per_second.
  apply Qle_bool_iff in Hd. rewrite Hd. reflexivity.
Qed.

Lemma packets_per_second_positive (sent : Z) (d : Q) :
  (0 < d)%Q -> packets_per_second sent d = Returned (inject_Z sent / d)%Q.
Proof.
  intros Hd. unfold packets_per_second, truediv.
  destruct (Qle_bool d 0) eqn:Hle.
  - apply Qle_bool_iff in Hle. exfalso. exact (Qlt_not_le _ _ Hd Hle).
  - cbn [negb]. destruct (Qeq_bool d 0) eqn:Heq; [|reflexivity].
    apply Qeq_bool_eq in Heq. rewrite Heq in Hd.
    exfalso. exact (Qlt_irrefl _ Hd).
Qed.

Lemma packets_per_second_returns (sent : Z) (d : Q) :
  exists q : Q, packets_per_second sent d = Returned q.
Proof.
  destruct (Qlt_le_dec 0 d) as [Hpos|Hle].
  - eexists. apply packets_per_second_positive. exact Hpos.
  - eexists. apply packets_per_second_nonpositive. exact Hle.
Qed.

(** The report of a sender that sent something and has both times set. *)
Lemma print_stats_spec (m : machine) (t0 t1 : Q) :
  start_time (self m) = Some t0 -> end_time (self m) = Some t1 ->
  sent_packets (self m) <> 0 ->
  exists pps : Q,
    packets_per_second (sent_packets (self m)) (t1 - t0)%Q = Returned pps /\
    print_stats m =
    (mkMachine (self m)
       (out m ++
        [Print StatsHeader;
         Print (TargetURL (url (self m)));
         Print (TotalSent (sent_packets (self m)));
         Print (Successful (success_packets (self m))
                  (inject_Z (success_packets (self m))
                   / inject_Z (sent_packets (self m)) * 100)%Q);
         Print (Failed (failed_packets (self m))
                  (inject_Z (failed_packets (self m))
                   / inject_Z (sent_packets (self m)) * 100)%Q);
         Print (TotalTime (t1 - t0)%Q);
         Print (AverageSpeed pps);
         Print StatsFooter])
       (ticks m),
     Returned tt).
Proof.
  intros Hs He Hsent.
  destruct (packets_per_second_returns (sent_packets (self m)) (t1 - t0)%Q)
    as [pps Hpps].
  exists pps. split; [exact Hpps|].
  unfold print_stats, elapsed. run_monad. rewrite Hs, He, Hpps.
  rewrite !truediv_nonzero by exact Hsent. cbn.
  rewrite <- !app_assoc. reflexivity.
Qed.

(** The report of a sender that sent nothing: three lines, then the
    division by [sent_packets] raises. *)
Lemma print_stats_nothing_sent (m : machine) (t0 t1 : Q) :
  start_time (self m) = Some t0 -> end_time (self m) = Some t1 ->
  sent_packets (self m) = 0 ->
  print_stats m =
  (mkMachine (self m)
     (out m ++
      [Print StatsHeader;
       Print (TargetURL (url (self m)));
       Print (TotalSent 0)])
     (ticks m),
   Raised ZeroDivisionError).
Proof.
  intros Hs He Hsent.
  destruct (packets_per_second_returns (sent_packets (self m)) (t1 - t0)%Q)
    as [pps Hpps].
  unfold print_stats, elapsed. run_monad. rewrite Hs, He, Hpps, Hsent.
  cbn. rewrite <- !app_assoc. reflexivity.
Qed.

Lemma print_stats_self (m : machine) : self (fst (print_stats m)) = self m.
Proof.
  unfold print_stats, elapsed. run_monad.
  destruct (end_time (self m)), (start_time (self m)); try reflexivity.
  destruct (packets_per_second _ _); [|reflexivity]. cbn.
  destruct (truediv (inject_Z (success_packets (self m))) _); [|reflexivity].
  cbn. destruct (truediv (inject_Z (failed_packets (self m))) _); reflexivity.
Qed.

(** [send_batch_async] for a batch size other than zero: the entry, the
    loop, the end time, the report. *)
Lemma send_batch_async_unfold (w : world) (b : Z) (m : machine) :
  b <> 0 ->
  send_batch_async w b m =
  match for_each (loop_offsets (num_packets (self m)) b) (batch w b)
                 (entry w m) with
  | (m', Returned _) => print_stats (finish w m')
  | (m', Raised e) => (m', Raised e)
  end.
Proof.
  intros Hb. unfold send_batch_async. run_monad.
  rewrite range_loop_offsets by exact Hb. cbn.
  unfold entry. rewrite <- !app_assoc. cbn.
  destruct (for_each _ _ _) as [m' [[]|e]]; reflexivity.
Qed.

Lemma sum_app (l1 l2 : list Z) : sum (l1 ++ l2) = sum l1 + sum l2.
Proof.
  induction l1 as [|x l1 IH].
  - cbn [app]. change (sum []) with 0. lia.
  - cbn [app]. rewrite !sum_cons, IH. lia.
Qed.

Lemma In_take {A} (x : A) (k : nat) (l : list A) : In x (take k l) -> In x l.
Proof.
  rewrite <- !list_elem_of_In, elem_of_take. intros (i & Hi & _).
  apply list_elem_of_lookup. exists i. exact Hi.
Qed.

Lemma sum_take_mono (f : Z -> Z) (l : list Z) (j k : nat) :
  (forall x, In x l -> 0 <= f x) -> (j <= k)%nat ->
  sum (map f (take j l)) <= sum (map f (take k l)).
Proof.
  revert j k. induction l as [|x l IH]; intros j k Hf Hjk.
  - destruct j, k; cbn; lia.
  - assert (Hl : forall y, In y l -> 0 <= f y)
      by (intros y Hy; apply Hf; right; exact Hy).
    assert (Hx : 0 <= f x) by (apply Hf; left; reflexivity).
    assert (Hk : forall k, 0 <= sum (map f (take k l))).
    { intros k'. specialize (IH O k' Hl ltac:(lia)). cbn in IH. exact IH. }
    destruct j as [|j], k as [|k]; cbn [take map]; rewrite ?sum_cons.
    + lia.
    + specialize (Hk k). cbn. change (fold_left Z.add [] 0) with 0. lia.
    + lia.
    + specialize (IH j k Hl ltac:(lia)). lia.
Qed.

(** The machine after [k] iterations, for a positive batch size: the loop
    has not raised, and the counters have grown by the sizes of the first
    [k] batches. *)
Lemma after_folds_spec (w : world) (b : Z) (m : machine) (k : nat) :
  0 < b ->
  let n := num_packets (self m) in
  let done := take k (loop_offsets n b) in
  let m' := after_folds w b m k in
  for_each done (batch w b) m = (m', Returned tt) /\
  config_of (self m') = config_of (self m) /\
  ticks m' = ticks m /\
  sent_packets (self m') =
    sent_packets (self m) + sum (map (current_batch_size b n) done) /\
  success_packets (self m') + failed_packets (self m') =
    success_packets (self m) + failed_packets (self m)
    + sum (map (current_batch_size b n) done).
Proof.
  intros Hb. cbv zeta. unfold after_folds.
  destruct (loop_spec w b (take k (loop_offsets (num_packets (self m)) b)) m Hb)
    as (m' & Hrun & Hrest).
  { intros i Hi. apply In_take in Hi.
    apply (loop_offsets_bounds _ b); assumption. }
  rewrite Hrun. cbn [fst]. split; [reflexivity|exact Hrest].
Qed.

Lemma config_of_fields (s s' : PacketSender) :
  config_of s' = config_of s ->
  num_packets s' = num_packets s /\ start_time s' = start_time s.
Proof. unfold config_of. intros H. injection H as _ Hn _ _ _ _ Hs _. tauto. Qed.

(** A run with a positive batch size is the entry, all the folds, the end
    time and the report. *)
Lemma send_batch_async_positive (w : world) (b : Z) (m0 : machine) :
  0 < b ->
  send_batch_async w b m0
  = print_stats
      (finish w (after_folds w b (entry w m0)
                   (length (loop_offsets (num_packets (self m0)) b)))).
Proof.
  intros Hb. rewrite send_batch_async_unfold by lia.
  destruct (after_folds_spec w b (entry w m0)
              (length (loop_offsets (num_packets (self m0)) b)) Hb)
    as (Hrun & _).
  change (num_packets (self (entry w m0))) with (num_packets (self m0)) in Hrun.
  rewrite firstn_all in Hrun. rewrite Hrun. reflexivity.
Qed.

(** C5: during a run with a positive batch size, started on a sender whose
    counters agree ([sent == success + failure], as on a fresh sender), the
    counters agree after every fold of the loop, each fold adds exactly the
    (positive) size of its batch to [sent_packets] and to [success_packets +
    failed_packets], so [sent_packets] never decreases; and the run is these
    folds followed by the report. *)
Theorem fold_invariant (w : world) (b : Z) (m0 : machine) :
  0 < b ->
  sent_packets (self m0)
    = success_packets (self m0) + failed_packets (self m0) ->
  let n := num_packets (self m0) in
  let offsets := loop_offsets n b in
  let state k := self (after_folds w b (entry w m0) k) in
  (forall k : nat,
      sent_packets (state k)
        = success_packets (state k) + failed_packets (state k)) /\
  (forall (k : nat) (i : Z),
      offsets !! k = Some i ->
      let cb := current_batch_size b n i in
      0 < cb /\
      sent_packets (state (S k)) = sent_packets (state k) + cb /\
      success_packets (state (S k)) + failed_packets (state (S k))
        = success_packets (state k) + failed_packets (state k) + cb) /\
  (forall j k : nat,
      (j <= k)%nat -> sent_packets (state j) <= sent_packets (state k)) /\
  send_batch_async w b m0
    = print_stats
        (finish w (after_folds w b (entry w m0) (length offsets))).
Proof.
  intros Hb Hinv. cbv zeta.
  assert (Hn : num_packets (self (entry w m0)) = num_packets (self m0))
    by reflexivity.
  assert (Hspec := fun k => after_folds_spec w b (entry w m0) k Hb).
  cbv zeta in Hspec. rewrite Hn in Hspec.
  split; [|split; [|split]].
  - intros k. destruct (Hspec k) as (_ & _ & _ & Hsent & Hsf).
    cbn in Hsent, Hsf. lia.
  - intros k i Hk.
    destruct (Hspec k) as (_ & _ & _ & Hsent & Hsf).
    destruct (Hspec (S k)) as (_ & _ & _ & Hsent' & Hsf').
    rewrite (take_S_r _ _ _ Hk), map_app, sum_app in Hsent', Hsf'.
    cbn [map] in Hsent', Hsf'. rewrite sum_cons in Hsent', Hsf'.
    change (sum []) with 0 in Hsent', Hsf'.
    assert (Hi : 0 <= i < num_packets (self m0)).
    { apply (loop_offsets_bounds _ b); [exact Hb|].
      apply list_elem_of_In, list_elem_of_lookup. exists k. exact Hk. }
    unfold current_batch_size at 1. split; [lia|]. split; lia.
  - intros j k Hjk.
    destruct (Hspec j) as (_ & _ & _ & Hj & _).
    destruct (Hspec k) as (_ & _ & _ & Hk & _).
    rewrite Hj, Hk. apply Z.add_le_mono_l, sum_take_mono; [|exact Hjk].
    intros x Hx. apply (loop_offsets_bounds _ b) in Hx; [|exact Hb].
    unfold current_batch_size. lia.
  - apply send_batch_async_positive. exact Hb.
Qed.

Lemma fold_invariant_witness :
  let w := example_world in
  let b := 10 in
  let m0 := mkMachine (__init__ "http://h" 25 5 "GET" None None) [] 0 in
  let n := num_packets (self m0) in
  let offsets := loop_offsets n b in
  let state k := self (after_folds w b (entry w m0) k) in
  (forall k : nat,
      sent_packets (state k)
        = success_packets (state k) + failed_packets (state k)) /\
  (forall (k : nat) (i : Z),
      offsets !! k = Some i ->
      let cb := current_batch_size b n i in
      0 < cb /\
      sent_packets (state (S k)) = sent_packets (state k) + cb /\
      success_packets (state (S k)) + failed_packets (state (S k))
        = success_packets (state k) + failed_packets (state k) + cb) /\
  (forall j k : nat,
      (j <= k)%nat -> sent_packets (state j) <= sent_packets (state k)) /\
  send_batch_async w b m0
    = print_stats
        (finish w (after_folds w b (entry w m0) (length offsets))).
Proof.
  apply (fold_invariant example_world 10
           (mkMachine (__init__ "http://h" 25 5 "GET" None None) [] 0)).
  - lia.
  - reflexivity.
Defined.

(** The whole loop of a run with a positive batch size on a non-negative
    total adds exactly [num_packets] to [sent_packets] and to the two other
    counters together. *)
Lemma whole_loop_counters (w : world) (b : Z) (m : machine) :
  0 < b -> 0 <= num_packets (self m) ->
  let m' := after_folds w b m (length (loop_offsets (num_packets (self m)) b)) in
  config_of (self m') = config_of (self m) /\
  sent_packets (self m') = sent_packets (self m) + num_packets (self m) /\
  success_packets (self m') + failed_packets (self m') =
    success_packets (self m) + failed_packets (self m) + num_packets (self m).
Proof.
  intros Hb Hn. cbv zeta.
  destruct (after_folds_spec w b m
              (length (loop_offsets (num_packets (self m)) b)) Hb)
    as (_ & Hcfg & _ & Hsent & Hsf).
  set (m' := after_folds w b m _) in *.
  rewrite firstn_all in Hsent, Hsf.
  rewrite loop_offsets_positive in Hsent, Hsf by exact Hb.
  rewrite sum_sizes_from in Hsent, Hsf by lia.
  split; [exact Hcfg|]. split; lia.
Qed.

(** C1: for a valid configuration ([num_packets >= 0], [batch_size > 0],
    [concurrency > 0]) a freshly constructed sender that has gone through
    [send_batch_async] has [sent_packets == success_packets + failed_packets
    == num_packets]; and when there is at least one packet to send the
    dispatch does complete (it returns). *)
Theorem run_counters (w : world) (u : string) (n c : Z) (meth : string)
    (d : option string) (h : option (gmap string string)) (b : Z)
    (out0 : list event) (ticks0 : nat) :
  0 <= n -> 0 < b -> 0 < c ->
  let run := send_batch_async w b
               (mkMachine (__init__ u n c meth d h) out0 ticks0) in
  let s := self (fst run) in
  sent_packets s = success_packets s + failed_packets s /\
  success_packets s + failed_packets s = num_packets s /\
  num_packets s = n /\
  (0 < n -> snd run = Returned tt).
Proof.
  intros Hn Hb Hc. cbv zeta.
  set (m0 := mkMachine (__init__ u n c meth d h) out0 ticks0).
  rewrite (send_batch_async_positive w b m0 Hb).
  destruct (whole_loop_counters w b (entry w m0) Hb Hn)
    as (Hcfg & Hsent & Hsf).
  apply config_of_fields in Hcfg. destruct Hcfg as [Hnum Hstart].
  change (num_packets (self m0)) with n.
  change (num_packets (self (entry w m0))) with n in *.
  set (m1 := after_folds w b (entry w m0) (length (loop_offsets n b))) in *.
  cbn in Hsent, Hsf, Hstart.
  rewrite print_stats_self. cbn [finish self set_end_time sent_packets
    success_packets failed_packets num_packets].
  repeat split; try lia.
  intros Hpos.
  destruct (print_stats_spec (finish w m1) (clock w ticks0) (clock w (ticks m1)))
    as (pps & _ & ->); cbn; try assumption; try reflexivity; lia.
Qed.

Lemma run_counters_witness :
  let run := send_batch_async example_world 10
               (mkMachine (__init__ "http://h" 25 5 "GET" None None) [] 0) in
  let s := self (fst run) in
  sent_packets s = success_packets s + failed_packets s /\
  success_packets s + failed_packets s = num_packets s /\
  num_packets s = 25 /\
  (0 < 25 -> snd run = Returned tt).
Proof.
  apply (run_counters example_world "http://h" 25 5 "GET" None None 10 [] 0);
    lia.
Defined.

(** A run with nothing to send: no batch, and the report raises at its
    first percentage. *)
Lemma empty_run (w : world) (b : Z) (m : machine) :
  b <> 0 -> num_packets (self m) = 0 -> sent_packets (self m) = 0 ->
  send_batch_async w b m =
  (mkMachine
     (set_end_time (set_start_time (self m) (Some (clock w (ticks m))))
                   (Some (clock w (S (ticks m)))))
     (out m ++
      [Print (Starting (url (self m)));
       Print (Sending 0 (concurrency (self m)));
       Connector (concurrency (self m));
       Print StatsHeader;
       Print (TargetURL (url (self m)));
       Print (TotalSent 0)])
     (S (S (ticks m))),
   Raised ZeroDivisionError).
Proof.
  intros Hb Hn Hsent. rewrite send_batch_async_unfold by exact Hb.
  assert (Hoff : loop_offsets (num_packets (self m)) b = []).
  { rewrite Hn. unfold loop_offsets, range.
    destruct (b =? 0); [reflexivity|]. destruct (0 <? b); reflexivity. }
  rewrite Hoff. cbn [for_each]. unfold mret, M_ret.
  rewrite (print_stats_nothing_sent _ (clock w (ticks m))
             (clock w (S (ticks m)))); [|reflexivity|reflexivity|exact Hsent].
  cbn. rewrite Hn, <- !app_assoc. reflexivity.
Qed.

(** C3 (the code departs from the claim): with [-n 0] no batch runs and the
    counters stay at zero, the throughput is computed as 0, but the report
    does not complete: after its first three lines the success percentage
    divides by [sent_packets == 0] and [ZeroDivisionError] ends the run. *)
Theorem report_faults_when_nothing_sent (w : world) (u : string) :
  main w (mkArgv u (Some 0) None None None None) =
  ([Print (Starting u); Print (Sending 0 100); Connector 100;
    Print StatsHeader; Print (TargetURL u); Print (TotalSent 0)],
   Raised ZeroDivisionError) /\
  (forall d : Q, exists q : Q,
      packets_per_second 0 d = Returned q /\ (q == 0)%Q).
Proof.
  split.
  - unfold main, parse_args. cbn -[send_batch_async].
    rewrite empty_run by (cbn; lia). reflexivity.
  - intros d. destruct (Qlt_le_dec 0 d) as [Hpos|Hle].
    + rewrite packets_per_second_positive by exact Hpos.
      eexists. split; [reflexivity|]. unfold Qdiv. apply Qmult_0_l.
    + rewrite packets_per_second_nonpositive by exact Hle.
      eexists. split; reflexivity.
Qed.



(** ** Outcome of an attempt *)

Lemma supported_spec (s : PacketSender) :
  supported s = true <-> method s = "GET" \/ method s = "POST".
Proof.
  unfold supported. rewrite orb_true_iff, !String.eqb_eq. reflexivity.
Qed.

Lemma below_400_spec (s : PacketSender) (h : http_behaviour) :
  below_400 s h = true <-> response_below_400 s h.
Proof.
  unfold below_400, response_below_400.
  rewrite andb_true_iff, supported_spec. split.
  - intros [Hm Hh]. split; [exact Hm|].
    destruct h as [status|e]; [|discriminate].
    exists status. split; [reflexivity|]. apply Z.ltb_lt. exact Hh.
  - intros [Hm (status & -> & Hlt)]. split; [exact Hm|].
    apply Z.ltb_lt. exact Hlt.
Qed.

Lemma send_single_packet_value (s : PacketSender) (h : http_behaviour) :
  raises_only_Exception h ->
  send_single_packet s h = Returned (VBool (below_400 s h)).
Proof.
  intros Hexc. unfold send_single_packet, below_400, supported.
  destruct (method s =? "GET")%string; [|destruct (method s =? "POST")%string].
  1, 2: destruct h as [status|e]; cbn;
    [destruct (status <? 400); reflexivity|rewrite (Hexc e eq_refl); reflexivity].
  destruct h; reflexivity.
Qed.

Lemma send_single_packet_async_value (s : PacketSender) (h : http_behaviour) :
  raises_only_Exception h ->
  send_single_packet_async s h =
  Returned (if supported s then VBool (below_400 s h) else VNone).
Proof.
  intros Hexc. unfold send_single_packet_async, below_400, supported.
  destruct (method s =? "GET")%string; [|destruct (method s =? "POST")%string].
  1, 2: destruct h as [status|e]; cbn;
    [reflexivity|rewrite (Hexc e eq_refl); reflexivity].
  reflexivity.
Qed.

Lemma outcome_cases (v : value) (P : Prop) :
  (is_True v = true <-> P) ->
  (outcome_of v = Success <-> P) /\ (outcome_of v = Failure <-> ~ P).
Proof.
  unfold outcome_of. intros [H1 H2]. destruct (is_True v).
  - assert (HP : P) by (apply H1; reflexivity).
    split; split; intros; try tauto; discriminate.
  - assert (HP : ~ P) by (intros HP; apply H2 in HP; discriminate).
    split; split; intros; try tauto; try discriminate.
Qed.

(** C4: an attempt, synchronous or asynchronous, never raises, whatever the
    stored method and whatever the HTTP client does (any status code, any
    raised transport error or timeout): it returns, and what it returns
    counts as Success exactly when a response with a status code below 400
    was received, and as Failure in every other case.  The synchronous
    attempt returns [True] or [False]; so does the asynchronous one, except
    that it returns [None] (a Failure for the fold) when the stored method
    is neither [GET] nor [POST]. *)
Theorem attempt_outcome (s : PacketSender) (h : http_behaviour) :
  raises_only_Exception h ->
  (exists v : value,
      send_single_packet s h = Returned v /\
      (outcome_of v = Success <-> response_below_400 s h) /\
      (outcome_of v = Failure <-> ~ response_below_400 s h) /\
      (exists b : bool, v = VBool b)) /\
  (exists v : value,
      send_single_packet_async s h = Returned v /\
      (outcome_of v = Success <-> response_below_400 s h) /\
      (outcome_of v = Failure <-> ~ response_below_400 s h) /\
      ((exists b : bool, v = VBool b) \/
       (v = VNone /\ method s <> "GET" /\ method s <> "POST"))).
Proof.
  intros Hexc. split.
  - exists (VBool (below_400 s h)).
    split; [apply send_single_packet_value; exact Hexc|].
    destruct (outcome_cases (VBool (below_400 s h)) (response_below_400 s h))
      as [Hsucc Hfail].
    { rewrite <- below_400_spec. cbn.
      destruct (below_400 s h); split; congruence. }
    split; [exact Hsucc|]. split; [exact Hfail|]. eexists; reflexivity.
  - exists (if supported s then VBool (below_400 s h) else VNone).
    split; [apply send_single_packet_async_value; exact Hexc|].
    destruct (outcome_cases
                (if supported s then VBool (below_400 s h) else VNone)
                (response_below_400 s h)) as [Hsucc Hfail].
    { rewrite <- below_400_spec.
      unfold below_400. destruct (supported s); cbn; [|split; congruence].
      destruct h as [status|e]; [|split; congruence].
      destruct (status <? 400); split; congruence. }
    split; [exact Hsucc|]. split; [exact Hfail|].
    destruct (supported s) eqn:Hsup; [left; eexists; reflexivity|].
    right. split; [reflexivity|].
    pose proof (supported_spec s) as Hspec. rewrite Hsup in Hspec.
    split; intros Hm; (assert (false = true) by (apply Hspec; auto));
      discriminate.
Qed.

Lemma attempt_outcome_witness :
  let s := __init__ "http://h" 1 1 "get" None None in
  let h := Throws TimedOut in
  (exists v : value,
      send_single_packet s h = Returned v /\
      (outcome_of v = Success <-> response_below_400 s h) /\
      (outcome_of v = Failure <-> ~ response_below_400 s h) /\
      (exists b : bool, v = VBool b)) /\
  (exists v : value,
      send_single_packet_async s h = Returned v /\
      (outcome_of v = Success <-> response_below_400 s h) /\
      (outcome_of v = Failure <-> ~ response_below_400 s h) /\
      ((exists b : bool, v = VBool b) \/
       (v = VNone /\ method s <> "GET" /\ method s <> "POST"))).
Proof.
  apply (attempt_outcome (__init__ "http://h" 1 1 "get" None None)
           (Throws TimedOut)).
  intros e He. injection He as <-. reflexivity.
Defined.

(** ** What the fold of a batch counts *)

Lemma batch_counters (w : world) (b i : Z) (m : machine) :
  let s := self m in
  let cb := current_batch_size b (num_packets s) i in
  let results := batch_results w s i cb in
  let s' := self (fst (batch w b i m)) in
  sent_packets s' = sent_packets s + cb /\
  success_packets s' = success_packets s + count_True results /\
  failed_packets s' = failed_packets s + count_not_True results.
Proof.
  cbv zeta. unfold batch. run_monad.
  destruct (truediv _ _); cbn; repeat split; reflexivity.
Qed.

Lemma count_single (r : value) :
  (r = VBool true -> count_True [r] = 1 /\ count_not_True [r] = 0) /\
  (r <> VBool true -> count_True [r] = 0 /\ count_not_True [r] = 1).
Proof.
  split; [intros ->; split; reflexivity|].
  intros Hr. destruct r as [[|]| |e]; try (split; reflexivity).
  congruence.
Qed.

(** C9: the fold of a batch adds to [failed_packets] the number of results
    that are not the boolean [True]; each such result ([False], [None], an
    exception object) counts once as a failure and never as a success.  An
    asynchronous attempt whose stored method is neither [GET] nor [POST]
    returns [None]; an attempt that raises past its handler shows up in the
    gathered results as its exception.  So, whatever the attempts return,
    the successes and failures counted for a batch add up to the number of
    results, which is the batch size. *)
Theorem fold_counts_not_True_as_failure
    (w : world) (b i : Z) (m : machine) :
  let s := self m in
  let cb := current_batch_size b (num_packets s) i in
  let results := batch_results w s i cb in
  let s' := self (fst (batch w b i m)) in
  success_packets s' = success_packets s + count_True results /\
  failed_packets s' = failed_packets s + count_not_True results /\
  (forall rs : list value,
      count_not_True rs
        = Z.of_nat (length (List.filter (λ r, negb (is_True r)) rs)) /\
      count_True rs + count_not_True rs = Z.of_nat (length rs)) /\
  (forall r : value,
      r <> VBool true -> count_True [r] = 0 /\ count_not_True [r] = 1) /\
  (forall h : http_behaviour,
      method s <> "GET" -> method s <> "POST" ->
      send_single_packet_async s h = Returned VNone) /\
  (forall e : exception, gather [Raised e] = [VExc e]) /\
  (0 <= cb ->
   Z.of_nat (length results) = cb /\
   success_packets s' + failed_packets s'
     = success_packets s + failed_packets s + cb).
Proof.
  cbv zeta.
  destruct (batch_counters w b i m) as (_ & Hsucc & Hfail).
  split; [exact Hsucc|]. split; [exact Hfail|].
  split; [|split; [|split; [|split]]].
  - intros rs. split; [|apply count_results].
    unfold count_not_True. apply sum_ones.
  - intros r. apply count_single.
  - intros h Hget Hpost. unfold send_single_packet_async.
    destruct (String.eqb_spec (method (self m)) "GET"); [contradiction|].
    destruct (String.eqb_spec (method (self m)) "POST"); [contradiction|].
    reflexivity.
  - reflexivity.
  - intros Hcb.
    pose proof (count_results (batch_results w (self m) i
      (current_batch_size b (num_packets (self m)) i))) as Hcount.
    rewrite batch_results_length in *. split; lia.
Qed.

Lemma fold_counts_not_True_as_failure_witness :
  let w := mkWorld (λ k, if Z.even k then Throws TaskCancelled
                         else Responds 200)
                   (λ r, inject_Z (Z.of_nat r)) in
  let m := mkMachine (__init__ "http://h" 4 2 "get" None None) [] 0 in
  let s := self m in
  let cb := current_batch_size 3 (num_packets s) 0 in
  let results := batch_results w s 0 cb in
  let s' := self (fst (batch w 3 0 m)) in
  (0 <= cb ->
   Z.of_nat (length results) = cb /\
   success_packets s' + failed_packets s'
     = success_packets s + failed_packets s + cb) /\
  results = [VExc CancelledError; VBool true; VExc CancelledError] /\
  success_packets s' = 1 /\ failed_packets s' = 2.
Proof.
  split; [|repeat split; reflexivity].
  apply (fold_counts_not_True_as_failure
           (mkWorld (λ k, if Z.even k then Throws TaskCancelled
                          else Responds 200)
                    (λ r, inject_Z (Z.of_nat r)))
           3 0 (mkMachine (__init__ "http://h" 4 2 "get" None None) [] 0)).
Defined.

(** ** The method string *)

Lemma upper_lower_char (c : ascii) : upper_char (lower_char c) = upper_char c.
Proof.
  destruct c as [[] [] [] [] [] [] [] []]; reflexivity.
Qed.

Lemma upper_lower (s : string) : upper (lower s) = upper s.
Proof.
  induction s as [|c s IH]; [reflexivity|].
  cbn [lower upper]. rewrite upper_lower_char, IH. reflexivity.
Qed.

Lemma upper_same_ignoring_case (s t : string) :
  same_ignoring_case s t -> upper s = upper t.
Proof.
  unfold same_ignoring_case. intros H.
  rewrite <- (upper_lower s), <- (upper_lower t), H. reflexivity.
Qed.

(** C10: the constructor stores [method.upper()], so two method strings that
    differ by case only give the same sender; in particular any lowercase or
    mixed-case spelling of [GET] or [POST] stores exactly [GET] or [POST],
    and attempts made by that sender are those of the sender built with the
    uppercase spelling. *)
Theorem method_case_normalised (u : string) (n c : Z) (s t : string)
    (d : option string) (h : option (gmap string string)) :
  same_ignoring_case s t ->
  let a := __init__ u n c s d h in
  let b := __init__ u n c t d h in
  a = b /\
  (t = "GET" \/ t = "POST" -> method a = t /\ supported a = true) /\
  (forall hb : http_behaviour,
      send_single_packet a hb = send_single_packet b hb /\
      send_single_packet_async a hb = send_single_packet_async b hb) /\
  (forall (w : world) (size : Z) (out0 : list event) (ticks0 : nat),
      send_batch_async w size (mkMachine a out0 ticks0)
      = send_batch_async w size (mkMachine b out0 ticks0)).
Proof.
  intros Hcase. cbv zeta.
  assert (Heq : __init__ u n c s d h = __init__ u n c t d h).
  { unfold __init__. rewrite (upper_same_ignoring_case s t Hcase).
    reflexivity. }
  split; [exact Heq|]. rewrite Heq. split; [|split; [split|]]; try reflexivity.
  intros [-> | ->]; split; reflexivity.
Qed.

Lemma method_case_normalised_witness :
  let a := __init__ "http://h" 10 2 "pOsT" (Some "x=1") None in
  let b := __init__ "http://h" 10 2 "POST" (Some "x=1") None in
  a = b /\
  ("POST" = "GET" \/ "POST" = "POST" -> method a = "POST" /\ supported a = true) /\
  (forall hb : http_behaviour,
      send_single_packet a hb = send_single_packet b hb /\
      send_single_packet_async a hb = send_single_packet_async b hb) /\
  (forall (w : world) (size : Z) (out0 : list event) (ticks0 : nat),
      send_batch_async w size (mkMachine a out0 ticks0)
      = send_batch_async w size (mkMachine b out0 ticks0)).
Proof.
  apply (method_case_normalised "http://h" 10 2 "pOsT" "POST" (Some "x=1") None).
  reflexivity.
Defined.

(** ** What a computation adds to the output *)

Lemma appends_nothing {A} (P : event -> Prop) (c : M A) :
  (forall m, out (fst (c m)) = out m) -> appends P c.
Proof.
  intros H m. exists []. rewrite H, app_nil_r. split; [reflexivity|constructor].
Qed.

Lemma appends_emits (P : event -> Prop) (es : list event) :
  Forall P es -> appends P (emits es).
Proof. intros H m. exists es. split; [reflexivity|exact H]. Qed.

Lemma appends_bind {A B} (P : event -> Prop) (c : M A) (k : A -> M B) :
  appends P c -> (forall a, appends P (k a)) -> appends P (c ≫= k).
Proof.
  intros Hc Hk m. unfold mbind, M_bind.
  destruct (Hc m) as (es1 & Hout1 & HP1).
  destruct (c m) as [m1 [a|e]]; cbn [fst] in Hout1.
  - destruct (Hk a m1) as (es2 & Hout2 & HP2).
    exists (es1 ++ es2)%list. rewrite Hout2, Hout1, app_assoc.
    split; [reflexivity|]. apply Forall_app. split; assumption.
  - exists es1. split; assumption.
Qed.

Lemma appends_for_each {A} (P : event -> Prop) (l : list A)
    (body : A -> M unit) :
  (forall x, appends P (body x)) -> appends P (for_each l body).
Proof.
  intros Hbody. induction l as [|x l IH]; cbn [for_each].
  - apply appends_nothing. reflexivity.
  - apply appends_bind; [apply Hbody|intros _; exact IH].
Qed.

Ltac appends_step :=
  first
    [ apply appends_bind; [|intros ?]
    | apply appends_emits; repeat constructor
    | apply appends_nothing; reflexivity ].

Lemma appends_print_stats (P : event -> Prop) :
  (forall l, P (Print l)) -> appends P print_stats.
Proof.
  intros HP. unfold print_stats, print.
  repeat appends_step; apply HP.
Qed.

Lemma appends_batch (P : event -> Prop) (w : world) (b i : Z) :
  (forall l, P (Print l)) ->
  (forall n, Forall P (map (λ j, Attempt (i + j))
                           (range1 (current_batch_size b n i)))) ->
  appends P (batch w b i).
Proof.
  intros HP Hatt. unfold batch, print.
  appends_step; [appends_step|].
  appends_step; [apply appends_emits, Hatt|].
  repeat appends_step; apply HP.
Qed.

Lemma appends_send_batch_async (P : event -> Prop) (w : world) (b : Z) :
  (forall l, P (Print l)) ->
  (forall c, P (Connector c)) ->
  (forall n i, Forall P (map (λ j, Attempt (i + j))
                             (range1 (current_batch_size b n i)))) ->
  appends P (send_batch_async w b).
Proof.
  intros HP HC Hatt. unfold send_batch_async, print.
  do 7 (appends_step; [try appends_step; auto|]).
  appends_step; [apply appends_for_each; intros i; apply appends_batch; auto|].
  do 2 (appends_step; [appends_step|]).
  apply appends_print_stats, HP.
Qed.

(** ** Configuration errors *)

Lemma parse_args_choice (a : argv) :
  In (default "GET" (arg_method a)) method_choices ->
  parse_args a =
  Returned (mkNamespace (arg_url a)
              (default 1000000 (arg_num_packets a))
              (default 100 (arg_concurrency a))
              (default "GET" (arg_method a))
              (arg_data a)
              (default 10000 (arg_batch_size a))).
Proof.
  intros Hin. unfold parse_args.
  destruct (existsb _ method_choices) eqn:E; [reflexivity|].
  exfalso. rewrite <- not_true_iff_false, existsb_exists in E. apply E.
  exists (default "GET" (arg_method a)). split; [exact Hin|].
  apply String.eqb_refl.
Qed.

Lemma parse_args_no_choice (a : argv) :
  ~ In (default "GET" (arg_method a)) method_choices ->
  parse_args a = Raised SystemExit.
Proof.
  intros Hnin. unfold parse_args.
  destruct (existsb _ method_choices) eqn:E; [|reflexivity].
  exfalso. apply existsb_exists in E. destruct E as (x & Hx & Heq).
  apply String.eqb_eq in Heq. subst x. contradiction.
Qed.

(** A zero batch size: [range] raises at the head of the loop. *)
Lemma send_batch_async_zero (w : world) (m : machine) :
  send_batch_async w 0 m = (entry w m, Raised ValueError).
Proof.
  unfold send_batch_async, entry. run_monad.
  rewrite <- !app_assoc. reflexivity.
Qed.

(** Whatever the batch size, the run starts: the output continues with the
    two banner lines and the connector. *)
Lemma send_batch_async_starts (w : world) (b : Z) (m : machine) :
  exists rest : list event,
    out (fst (send_batch_async w b m)) = (out (entry w m) ++ rest)%list.
Proof.
  destruct (decide (b = 0)) as [->|Hb].
  - exists []. rewrite send_batch_async_zero, app_nil_r. reflexivity.
  - rewrite send_batch_async_unfold by exact Hb.
    destruct (appends_for_each (λ _, True)
                (loop_offsets (num_packets (self m)) b) (batch w b)
                ltac:(intros i; apply appends_batch; intros;
                      [exact I|apply Forall_forall; intros; exact I])
                (entry w m)) as (es1 & Hout1 & _).
    destruct (for_each _ _ (entry w m)) as [m1 [[]|e]]; cbn [fst] in Hout1.
    + destruct (appends_print_stats (λ _, True) ltac:(intros; exact I)
                  (finish w m1)) as (es2 & Hout2 & _).
      exists (es1 ++ es2)%list. rewrite Hout2. cbn [finish out].
      rewrite Hout1, app_assoc. reflexivity.
    + exists es1. exact Hout1.
Qed.

(** With a non-positive batch size no attempt is ever started. *)
Lemma no_attempt_without_batch (w : world) (b : Z) (m : machine) :
  b <= 0 ->
  appends (λ e, forall k, e <> Attempt k) (send_batch_async w b).
Proof.
  intros Hb. apply appends_send_batch_async; try discriminate.
  intros n i. unfold current_batch_size, range1.
  replace (Z.to_nat (Z.min b (n - i))) with O by lia. constructor.
Qed.

(** C6, as the code has it: an unsupported method on the command line is
    rejected by the argument parser before the sender exists, so that
    nothing is output, no attempt is issued and [main] ends with the
    parser's exit.  A supported method is all that is checked: whatever the
    concurrency and the batch size, the run starts (banner lines, connector
    created with the given limit).  With a non-positive batch size no
    attempt is issued, and with a batch size of zero the run stops with
    [ValueError] at the head of the loop. *)
Theorem startup_rejects_only_methods (w : world) (a : argv) :
  let meth := default "GET" (arg_method a) in
  let n := default 1000000 (arg_num_packets a) in
  let c := default 100 (arg_concurrency a) in
  let b := default 10000 (arg_batch_size a) in
  let preamble :=
    [Print (Starting (arg_url a)); Print (Sending n c); Connector c] in
  (~ In meth method_choices -> main w a = ([], Raised SystemExit)) /\
  (In meth method_choices ->
   exists rest : list event, fst (main w a) = (preamble ++ rest)%list) /\
  (In meth method_choices -> b <= 0 ->
   forall k : Z, ~ In (Attempt k) (fst (main w a))) /\
  (In meth method_choices -> b = 0 ->
   main w a = (preamble, Raised ValueError)).
Proof.
  cbv zeta. split; [|split; [|split]].
  - intros Hnin. unfold main. rewrite parse_args_no_choice by exact Hnin.
    reflexivity.
  - intros Hin. unfold main. rewrite parse_args_choice by exact Hin.
    cbn [ns_url ns_num_packets ns_concurrency ns_method ns_data ns_batch_size].
    match goal with
    | |- context [send_batch_async w ?b ?m] =>
        destruct (send_batch_async_starts w b m) as [rest Hrest];
        destruct (send_batch_async w b m) as [m' r]
    end.
    exists rest. cbn [fst] in *. exact Hrest.
  - intros Hin Hb k. unfold main. rewrite parse_args_choice by exact Hin.
    cbn [ns_url ns_num_packets ns_concurrency ns_method ns_data ns_batch_size].
    match goal with
    | |- context [send_batch_async w ?b ?m] =>
        destruct (no_attempt_without_batch w b m Hb m) as (es & Hout & Hes);
        destruct (send_batch_async w b m) as [m' r]
    end.
    cbn [fst out app] in *. rewrite Hout. intros Hk.
    rewrite Forall_forall in Hes.
    apply (Hes (Attempt k) ltac:(apply list_elem_of_In; exact Hk) k).
    reflexivity.
  - intros Hin Hb. unfold main. rewrite parse_args_choice by exact Hin.
    cbn [ns_url ns_num_packets ns_concurrency ns_method ns_data ns_batch_size].
    rewrite Hb, send_batch_async_zero. reflexivity.
Qed.

Lemma startup_rejects_only_methods_witness :
  let w := example_world in
  let a := mkArgv "http://h" (Some 3) (Some 0) (Some "GET") None (Some 0) in
  let preamble :=
    [Print (Starting "http://h"); Print (Sending 3 0); Connector 0] in
  (~ In "GET" method_choices -> main w a = ([], Raised SystemExit)) /\
  (In "GET" method_choices ->
   exists rest : list event, fst (main w a) = (preamble ++ rest)%list) /\
  (In "GET" method_choices -> 0 <= 0 ->
   forall k : Z, ~ In (Attempt k) (fst (main w a))) /\
  (In "GET" method_choices -> 0 = 0 ->
   main w a = (preamble, Raised ValueError)).
Proof.
  exact (startup_rejects_only_methods example_world
           (mkArgv "http://h" (Some 3) (Some 0) (Some "GET") None (Some 0))).
Defined.

(** The claim C6 fails for a negative batch size: the configuration is in
    error, yet [main] is not stopped at startup; the run starts, runs no
    batch, prints the head of the report and then raises. *)
Lemma negative_batch_size_not_rejected :
  let a := mkArgv "http://h" (Some 3) (Some 5) (Some "GET") None (Some (-1)) in
  config_error a /\
  main example_world a =
    ([Print (Starting "http://h"); Print (Sending 3 5); Connector 5;
      Print StatsHeader; Print (TargetURL "http://h"); Print (TotalSent 0)],
     Raised ZeroDivisionError) /\
  ~ rejected_at_startup (main example_world a).
Proof.
  cbv zeta. split; [|split].
  - right. right. cbn. lia.
  - reflexivity.
  - intros [Hout _]. discriminate Hout.
Qed.

(** ** More on the batched dispatch: what is sent, shown and counted *)

Lemma range1_app (a b : Z) :
  0 <= a -> 0 <= b ->
  range1 (a + b) = (range1 a ++ map (Z.add a) (range1 b))%list.
Proof.
  intros Ha Hb. rewrite !range1_seq.
  rewrite Z2Nat.inj_add by lia. rewrite seq_app, map_app. f_equal.
  rewrite map_map. cbn [Nat.add].
  replace (seq (Z.to_nat a) (Z.to_nat b))
    with (map (Nat.add (Z.to_nat a)) (seq 0 (Z.to_nat b))).
  - rewrite map_map. apply map_ext. intros k. lia.
  - change (map (Nat.add (Z.to_nat a)) (seq 0 (Z.to_nat b)))
      with (Nat.add (Z.to_nat a) <$> seq 0 (Z.to_nat b)).
    rewrite fmap_add_seq. f_equal. lia.
Qed.

Lemma range1_nonpositive (n : Z) : n <= 0 -> range1 n = [].
Proof.
  intros Hn. unfold range1. replace (Z.to_nat n) with O by lia. reflexivity.
Qed.

Lemma range_up_nil (fuel : nat) (i stop step : Z) :
  stop <= i -> range_up fuel i stop step = [].
Proof.
  intros H. destruct fuel; [reflexivity|]. cbn [range_up].
  destruct (Z.ltb_spec i stop); [lia|reflexivity].
Qed.

Lemma batch_results_app (w : world) (s : PacketSender) (i a b : Z) :
  0 <= a -> 0 <= b ->
  batch_results w s i (a + b)
  = (batch_results w s i a ++ batch_results w s (i + a) b)%list.
Proof.
  intros Ha Hb. unfold batch_results, gather.
  rewrite range1_app by assumption. rewrite !map_app. f_equal.
  rewrite !map_map. apply map_ext. intros j.
  replace (i + a + j) with (i + (a + j)) by lia. reflexivity.
Qed.

Lemma batch_results_method (w : world) (s s' : PacketSender) (i cb : Z) :
  method s' = method s -> batch_results w s' i cb = batch_results w s i cb.
Proof.
  intros Hm. unfold batch_results. f_equal. apply map_ext. intros j.
  unfold send_single_packet_async. rewrite Hm. reflexivity.
Qed.

Lemma count_True_app (l1 l2 : list value) :
  count_True (l1 ++ l2) = count_True l1 + count_True l2.
Proof.
  unfold count_True. rewrite List.filter_app, map_app, sum_app. reflexivity.
Qed.

Lemma count_not_True_app (l1 l2 : list value) :
  count_not_True (l1 ++ l2) = count_not_True l1 + count_not_True l2.
Proof.
  unfold count_not_True. rewrite List.filter_app, map_app, sum_app.
  reflexivity.
Qed.

Lemma count_True_nonneg (l : list value) : 0 <= count_True l.
Proof. unfold count_True. rewrite sum_ones. lia. Qed.

Lemma count_not_True_nonneg (l : list value) : 0 <= count_not_True l.
Proof. unfold count_not_True. rewrite sum_ones. lia. Qed.

Lemma attempts_of_app (l1 l2 : list event) :
  attempts_of (l1 ++ l2) = (attempts_of l1 ++ attempts_of l2)%list.
Proof.
  induction l1 as [|e l1 IH]; [reflexivity|].
  destruct e as [l|c|k]; cbn [app attempts_of]; rewrite IH; reflexivity.
Qed.

Lemma progress_of_app (l1 l2 : list event) :
  progress_of (l1 ++ l2) = (progress_of l1 ++ progress_of l2)%list.
Proof.
  induction l1 as [|e l1 IH]; [reflexivity|].
  destruct e as [[]|c|k]; cbn [app progress_of]; rewrite IH; reflexivity.
Qed.

Lemma attempts_of_attempts (i : Z) (l : list Z) :
  attempts_of (map (λ j, Attempt (i + j)) l) = map (Z.add i) l.
Proof.
  induction l as [|j l IH]; [reflexivity|].
  cbn [map attempts_of]. rewrite IH. reflexivity.
Qed.

Lemma progress_of_attempts (i : Z) (l : list Z) :
  progress_of (map (λ j, Attempt (i + j)) l) = [].
Proof. induction l as [|j l IH]; [reflexivity|exact IH]. Qed.

(** The whole effect of the loop from the offset [i] on, for a positive batch
    size: the counters are those of one single batch of all that is left,
    the attempts are started in the order of their indices, and each batch
    shows its progress line. *)
Lemma loop_full (w : world) (b n : Z) (fuel : nat) :
  0 < b ->
  forall (i : Z) (m : machine),
    num_packets (self m) = n -> 0 <= i <= n ->
    (Z.to_nat (n - i) <= fuel)%nat ->
    exists m' : machine,
      for_each (range_up fuel i n b) (batch w b) m = (m', Returned tt) /\
      config_of (self m') = config_of (self m) /\
      ticks m' = ticks m /\
      sent_packets (self m') = sent_packets (self m) + (n - i) /\
      success_packets (self m') =
        success_packets (self m)
        + count_True (batch_results w (self m) i (n - i)) /\
      failed_packets (self m') =
        failed_packets (self m)
        + count_not_True (batch_results w (self m) i (n - i)) /\
      attempts_of (out m') =
        (attempts_of (out m) ++ map (Z.add i) (range1 (n - i)))%list /\
      progress_of (out m') =
        (progress_of (out m)
         ++ map (λ i', (sent_packets (self m) - i + Z.min (i' + b) n, n))
                (range_up fuel i n b))%list.
Proof.
  intros Hb. induction fuel as [|fuel IH]; intros i m Hn Hi Hfuel.
  - assert (n - i = 0) as -> by lia. exists m. cbn [range_up for_each map].
    unfold batch_results. rewrite range1_nonpositive by lia. cbn [map gather].
    rewrite !app_nil_r. change (count_True []) with 0.
    change (count_not_True []) with 0.
    repeat split; try reflexivity; lia.
  - cbn [range_up]. destruct (Z.ltb_spec i n) as [Hlt|Hge].
    + cbn [for_each]. unfold mbind at 1, M_bind at 1.
      rewrite batch_spec by lia. cbv zeta. rewrite Hn.
      set (cb := current_batch_size b n i).
      set (results := batch_results w (self m) i cb).
      set (s1 := mkPacketSender _ _ _ _ _ _ _ _ _ _ _).
      set (m1 := mkMachine s1 _ _).
      assert (Hout1a : attempts_of (out m1)
                       = (attempts_of (out m) ++ map (Z.add i) (range1 cb))%list).
      { unfold m1. cbn [out]. rewrite !attempts_of_app, attempts_of_attempts.
        cbn [attempts_of]. rewrite app_nil_r. reflexivity. }
      assert (Hout1p : progress_of (out m1)
                       = (progress_of (out m)
                          ++ [(sent_packets (self m) + cb, n)])%list).
      { unfold m1. cbn [out]. rewrite !progress_of_app, progress_of_attempts.
        cbn [progress_of]. rewrite app_nil_r. unfold s1. cbn.
        reflexivity. }
      destruct (Z.le_gt_cases (i + b) n) as [Hfull|Hlast].
      * assert (Hcb : cb = b) by (unfold cb, current_batch_size; lia).
        destruct (IH (i + b) m1) as
          (m' & Hrun & Hcfg & Hticks & Hsent & Hsucc & Hfail & Hatt & Hprog);
          [reflexivity|lia|lia|].
        exists m'. split; [exact Hrun|].
        rewrite (batch_results_method w (self m) (self m1)) in Hsucc, Hfail
          by reflexivity.
        replace (n - i) with (b + (n - (i + b))) by lia.
        rewrite batch_results_app, count_True_app, count_not_True_app by lia.
        rewrite range1_app by lia.
        rewrite Hatt, Hout1a, Hprog, Hout1p, Hcb.
        unfold m1, s1 in Hcfg, Hticks, Hsent, Hsucc, Hfail |- *.
        cbn [self sent_packets success_packets failed_packets ticks]
          in Hsent, Hsucc, Hfail, Hticks |- *.
        unfold results in Hsucc, Hfail. rewrite Hcb in Hsent, Hsucc, Hfail.
        repeat split.
        -- rewrite Hcfg. unfold config_of. cbn. rewrite Hn. reflexivity.
        -- exact Hticks.
        -- lia.
        -- lia.
        -- lia.
        -- rewrite <- !app_assoc. f_equal. rewrite map_app. f_equal.
           rewrite map_map. apply map_ext. intros j. lia.
        -- rewrite <- !app_assoc. f_equal. cbn [map app]. f_equal.
           ++ f_equal. lia.
           ++ apply map_ext. intros i'. f_equal. lia.
      * assert (Hcb : cb = n - i) by (unfold cb, current_batch_size; lia).
        rewrite range_up_nil by lia. exists m1. cbn [for_each map].
        split; [reflexivity|].
        rewrite Hout1a, Hout1p. unfold m1, s1, results.
        cbn [self sent_packets success_packets failed_packets ticks].
        rewrite Hcb. repeat split; try reflexivity.
        -- unfold config_of. cbn. rewrite Hn. reflexivity.
        -- f_equal. f_equal. f_equal. lia.
    + assert (n - i = 0) as -> by lia. exists m. cbn [for_each map].
      unfold batch_results. rewrite range1_nonpositive by lia. cbn [map gather].
      rewrite !app_nil_r. change (count_True []) with 0.
      change (count_not_True []) with 0.
      repeat split; try reflexivity; lia.
Qed.

(** The report adds neither attempts nor progress lines to the output. *)
Lemma print_stats_silent (m : machine) :
  attempts_of (out (fst (print_stats m))) = attempts_of (out m) /\
  progress_of (out (fst (print_stats m))) = progress_of (out m).
Proof.
  unfold print_stats, elapsed. run_monad.
  destruct (end_time (self m)), (start_time (self m));
    try (split; reflexivity).
  destruct (packets_per_second _ _); [|split; reflexivity]. cbn.
  destruct (truediv (inject_Z (success_packets (self m))) _); cbn;
    [destruct (truediv (inject_Z (failed_packets (self m))) _); cbn|].
  all: rewrite !attempts_of_app, !progress_of_app; cbn;
    rewrite !app_nil_r; split; reflexivity.
Qed.

(** A run with a positive batch size on a non-negative total, from any
    machine: what it leaves in the sender and in the output, and how it
    ends. *)
Lemma run_full (w : world) (b : Z) (m : machine) :
  0 < b -> 0 <= num_packets (self m) ->
  let n := num_packets (self m) in
  let run := send_batch_async w b m in
  let s' := self (fst run) in
  config_of s' =
    config_of (set_end_time
                 (set_start_time (self m) (Some (clock w (ticks m))))
                 (Some (clock w (S (ticks m))))) /\
  sent_packets s' = sent_packets (self m) + n /\
  success_packets s' =
    success_packets (self m) + count_True (batch_results w (self m) 0 n) /\
  failed_packets s' =
    failed_packets (self m) + count_not_True (batch_results w (self m) 0 n) /\
  attempts_of (out (fst run)) = (attempts_of (out m) ++ range1 n)%list /\
  progress_of (out (fst run)) =
    (progress_of (out m)
     ++ map (λ i, (sent_packets (self m) + Z.min (i + b) n, n))
            (loop_offsets n b))%list /\
  (sent_packets (self m) + n <> 0 -> snd run = Returned tt) /\
  (sent_packets (self m) + n = 0 -> snd run = Raised ZeroDivisionError).
Proof.
  intros Hb Hn. cbv zeta.
  rewrite send_batch_async_unfold by lia.
  rewrite loop_offsets_positive by exact Hb.
  destruct (loop_full w b (num_packets (self m))
              (Z.to_nat (num_packets (self m) - 0)) Hb 0 (entry w m))
    as (m' & Hrun & Hcfg & Hticks & Hsent & Hsucc & Hfail & Hatt & Hprog);
    [reflexivity|lia|lia|].
  rewrite Hrun.
  rewrite (batch_results_method w (self m) (self (entry w m))) in Hsucc, Hfail
    by reflexivity.
  replace (num_packets (self m) - 0) with (num_packets (self m))
    in Hsent, Hsucc, Hfail, Hatt by lia.
  cbn [entry self out set_start_time sent_packets success_packets
       failed_packets] in Hsent, Hsucc, Hfail, Hatt, Hprog.
  rewrite !attempts_of_app in Hatt. cbn [attempts_of] in Hatt.
  rewrite !progress_of_app in Hprog. cbn [progress_of] in Hprog.
  rewrite !app_nil_r in Hatt, Hprog.
  assert (Hid : map (Z.add 0) (range1 (num_packets (self m)))
                = range1 (num_packets (self m))).
  { rewrite <- (map_id (range1 _)) at 2. apply map_ext. intros k. lia. }
  rewrite Hid in Hatt.
  assert (Hfields : url (self m') = url (self m) /\
                    num_packets (self m') = num_packets (self m) /\
                    concurrency (self m') = concurrency (self m) /\
                    method (self m') = method (self m) /\
                    data (self m') = data (self m) /\
                    headers (self m') = headers (self m) /\
                    start_time (self m') = Some (clock w (ticks m))).
  { unfold config_of in Hcfg. cbn in Hcfg.
    injection Hcfg as Hurl Hnum Hconc Hmeth Hdata Hhead Hstart _. tauto. }
  destruct Hfields as (Hurl & Hnum & Hconc & Hmeth & Hdata & Hhead & Hstart).
  destruct (print_stats_silent (finish w m')) as [Hsa Hsp].
  rewrite print_stats_self, Hsa, Hsp.
  cbn [finish self out set_end_time num_packets method sent_packets
       success_packets failed_packets].
  split.
  { unfold config_of. cbn.
    rewrite Hurl, Hnum, Hconc, Hmeth, Hdata, Hhead, Hstart, Hticks.
    reflexivity. }
  split; [exact Hsent|]. split; [exact Hsucc|]. split; [exact Hfail|].
  split; [exact Hatt|].
  split.
  { rewrite Hprog. f_equal. apply map_ext. intros i. f_equal. lia. }
  split.
  - intros Hnz.
    destruct (print_stats_spec (finish w m') (clock w (ticks m))
                (clock w (ticks m')))
      as (pps & _ & ->); cbn; try assumption; try reflexivity; lia.
  - intros Hz.
    rewrite (print_stats_nothing_sent (finish w m') (clock w (ticks m))
               (clock w (ticks m'))); cbn; try assumption; try reflexivity.
    lia.
Qed.

(** A gathered result is [True] exactly when the attempt met a response
    below 400; a cancelled attempt, a failed call, a status of 400 or more
    and an unsupported method all give something else. *)
Lemma is_True_attempt_result (w : world) (s : PacketSender) (k : Z) :
  is_True (attempt_result w s k) = succeeds w s k.
Proof.
  unfold attempt_result, succeeds, send_single_packet_async, below_400,
    supported.
  destruct (method s =? "GET")%string; [|destruct (method s =? "POST")%string].
  1, 2: destruct (http w k) as [status|[]]; cbn; try reflexivity;
    destruct (status <? 400); reflexivity.
  destruct (http w k); reflexivity.
Qed.

Lemma batch_results_all (w : world) (s : PacketSender) (n : Z) :
  batch_results w s 0 n = map (attempt_result w s) (indices n).
Proof.
  unfold batch_results, gather, indices. rewrite range1_seq, !map_map.
  apply map_ext. intros k. reflexivity.
Qed.

Lemma count_True_map {A} (f : A -> value) (l : list A) :
  count_True (map f l)
  = Z.of_nat (length (List.filter (λ x, is_True (f x)) l)).
Proof.
  unfold count_True. rewrite sum_ones. f_equal.
  induction l as [|x l IH]; [reflexivity|].
  cbn [map List.filter]. destruct (is_True (f x)); cbn [length]; lia.
Qed.

Lemma count_True_all (w : world) (s : PacketSender) (n : Z) :
  count_True (batch_results w s 0 n) = successes w s n.
Proof.
  rewrite batch_results_all, count_True_map. unfold successes. do 2 f_equal.
  apply List.filter_ext. intros k. apply is_True_attempt_result.
Qed.

Lemma successes_bounds (w : world) (s : PacketSender) (n : Z) :
  0 <= n -> 0 <= successes w s n <= n.
Proof.
  intros Hn. unfold successes, indices.
  pose proof (List.filter_length_le (succeeds w s)
                (map Z.of_nat (seq 0 (Z.to_nat n)))) as Hle.
  rewrite length_map, length_seq in Hle. lia.
Qed.

(** The counters a run adds: the succeeding attempts to [success_packets],
    all the others to [failed_packets]. *)
Lemma run_counts (w : world) (b : Z) (m : machine) :
  0 < b -> 0 <= num_packets (self m) ->
  let n := num_packets (self m) in
  let s' := self (fst (send_batch_async w b m)) in
  success_packets s' = success_packets (self m) + successes w (self m) n /\
  failed_packets s' =
    failed_packets (self m) + (n - successes w (self m) n).
Proof.
  intros Hb Hn. cbv zeta.
  destruct (run_full w b m Hb Hn) as (_ & _ & Hsucc & Hfail & _).
  pose proof (count_results (batch_results w (self m) 0 (num_packets (self m))))
    as Hcount.
  rewrite batch_results_length, count_True_all in Hcount.
  rewrite count_True_all in Hsucc. split; [exact Hsucc|]. lia.
Qed.

Lemma In_indices (n k : Z) : In k (indices n) -> 0 <= k < n.
Proof.
  unfold indices. rewrite in_map_iff. intros (j & <- & Hj).
  apply in_seq in Hj. lia.
Qed.

Lemma filter_none {A} (f : A -> bool) (l : list A) :
  (forall x, In x l -> f x = false) -> List.filter f l = [].
Proof.
  induction l as [|x l IH]; intros H; [reflexivity|].
  cbn [List.filter]. rewrite (H x) by (left; reflexivity).
  apply IH. intros y Hy. apply H. right. exact Hy.
Qed.

Lemma filter_all {A} (f : A -> bool) (l : list A) :
  (forall x, In x l -> f x = true) -> List.filter f l = l.
Proof.
  induction l as [|x l IH]; intros H; [reflexivity|].
  cbn [List.filter]. rewrite (H x) by (left; reflexivity).
  f_equal. apply IH. intros y Hy. apply H. right. exact Hy.
Qed.

Lemma successes_none (w : world) (s : PacketSender) (n : Z) :
  (forall k, 0 <= k < n -> succeeds w s k = false) -> successes w s n = 0.
Proof.
  intros H. unfold successes. rewrite filter_none; [reflexivity|].
  intros k Hk. apply H, In_indices, Hk.
Qed.

Lemma successes_all (w : world) (s : PacketSender) (n : Z) :
  0 <= n ->
  (forall k, 0 <= k < n -> succeeds w s k = true) -> successes w s n = n.
Proof.
  intros Hn H. unfold successes. rewrite filter_all.
  - unfold indices. rewrite length_map, length_seq. lia.
  - intros k Hk. apply H, In_indices, Hk.
Qed.

(** A run whose loop has no offset to go over, on a sender that has sent
    nothing: the report raises at its first percentage. *)
Lemma run_without_batches (w : world) (b : Z) (m : machine) :
  b <> 0 -> loop_offsets (num_packets (self m)) b = [] ->
  sent_packets (self m) = 0 ->
  send_batch_async w b m =
  (mkMachine
     (set_end_time (set_start_time (self m) (Some (clock w (ticks m))))
                   (Some (clock w (S (ticks m)))))
     (out m ++
      [Print (Starting (url (self m)));
       Print (Sending (num_packets (self m)) (concurrency (self m)));
       Connector (concurrency (self m));
       Print StatsHeader;
       Print (TargetURL (url (self m)));
       Print (TotalSent 0)])
     (S (S (ticks m))),
   Raised ZeroDivisionError).
Proof.
  intros Hb Hoff Hsent. rewrite send_batch_async_unfold by exact Hb.
  rewrite Hoff. cbn [for_each]. unfold mret, M_ret.
  rewrite (print_stats_nothing_sent _ (clock w (ticks m))
             (clock w (S (ticks m)))); [|reflexivity|reflexivity|exact Hsent].
  cbn. rewrite <- !app_assoc. reflexivity.
Qed.

Lemma loop_offsets_nonpositive (n b : Z) :
  0 < b -> n <= 0 -> loop_offsets n b = [].
Proof.
  intros Hb Hn. rewrite loop_offsets_positive by exact Hb.
  apply range_up_nil. exact Hn.
Qed.

(** The fold number [k] of the loop is the body of the loop run at the
    offset number [k] on the machine left by the folds before it: it adds
    the size of its batch to [sent_packets], starts the attempts of its
    batch and prints one progress line. *)
Lemma fold_step (w : world) (b : Z) (m : machine) (k : nat) (i : Z) :
  0 < b ->
  loop_offsets (num_packets (self m)) b !! k = Some i ->
  let n := num_packets (self m) in
  let size := current_batch_size b n i in
  let before := after_folds w b m k in
  let after := after_folds w b m (S k) in
  batch w b i before = (after, Returned tt) /\
  sent_packets (self after) = sent_packets (self before) + size /\
  attempts_of (out after)
    = (attempts_of (out before) ++ map (Z.add i) (indices size))%list /\
  progress_of (out after)
    = (progress_of (out before)
       ++ [(sent_packets (self before) + size, n)])%list.
Proof.
  intros Hb Hk. cbv zeta.
  destruct (after_folds_spec w b m k Hb) as (Hrun & Hcfg & _).
  apply config_of_fields in Hcfg. destruct Hcfg as [Hnum _].
  assert (Hi : 0 <= i < num_packets (self m)).
  { apply (loop_offsets_bounds _ b); [exact Hb|].
    apply list_elem_of_In, list_elem_of_lookup. exists k. exact Hk. }
  assert (Hafter : after_folds w b m (S k)
                   = fst (batch w b i (after_folds w b m k))).
  { unfold after_folds at 1. rewrite (take_S_r _ _ _ Hk), for_each_app.
    rewrite Hrun. cbn [for_each]. unfold mbind, M_bind.
    rewrite batch_spec by (rewrite Hnum; lia). reflexivity. }
  rewrite Hafter. rewrite batch_spec by (rewrite Hnum; lia).
  cbv zeta. cbn [fst self out sent_packets num_packets]. rewrite Hnum.
  split; [reflexivity|]. split; [reflexivity|].
  rewrite !attempts_of_app, !progress_of_app, attempts_of_attempts,
    progress_of_attempts, range1_seq.
  cbn [attempts_of progress_of]. rewrite !app_nil_r.
  split; reflexivity.
Qed.

(** C2: for [total_requests >= 0] and [batch_size > 0] the batched dispatch
    cuts the total into consecutive batches.  The offsets of its loop,
    [range(0, num_packets, batch_size)], are [ceil(total / batch_size)] in
    number (the least count whose batches cover the total), batch [k]
    starts at [k * batch_size], every batch but the last has size
    [batch_size], the last one has size [min(batch_size, remaining) = total -
    batch_size * (count - 1)], and the sizes add up to the total.  The run
    of [send_batch_async] is made of exactly these batches, in this order,
    followed by the report: its fold number [k] is the loop body run at the
    offset number [k], which adds the size of batch [k] to [sent_packets],
    starts the attempts [offset .. offset + size - 1] and prints one
    progress line. *)
Theorem batch_partition (w : world) (b : Z) (m : machine) :
  let n := num_packets (self m) in
  0 <= n -> 0 < b ->
  exists offsets : list Z,
    range 0 n b = Returned offsets /\
    let count := Z.of_nat (length offsets) in
    let sizes := map (current_batch_size b n) offsets in
    let state k := after_folds w b (entry w m) k in
    count = ceil_div n b /\
    b * (count - 1) < n <= b * count /\
    (forall (k : nat) (i : Z),
        offsets !! k = Some i -> i = Z.of_nat k * b) /\
    (forall k : nat, (S k < length offsets)%nat -> sizes !! k = Some b) /\
    (forall i : Z,
        last offsets = Some i ->
        last sizes = Some (Z.min b (n - i)) /\
        Z.min b (n - i) = n - b * (count - 1)) /\
    sum sizes = n /\
    send_batch_async w b m
      = print_stats (finish w (state (length offsets))) /\
    (forall (k : nat) (i size : Z),
        offsets !! k = Some i -> sizes !! k = Some size ->
        batch w b i (state k) = (state (S k), Returned tt) /\
        sent_packets (self (state (S k)))
          = sent_packets (self (state k)) + size /\
        attempts_of (out (state (S k)))
          = (attempts_of (out (state k))
             ++ map (Z.add i) (indices size))%list /\
        progress_of (out (state (S k)))
          = (progress_of (out (state k))
             ++ [(sent_packets (self (state k)) + size, n)])%list).
Proof.
  cbv zeta. intros Hn Hb.
  destruct (batch_plan (num_packets (self m)) b Hn Hb)
    as (offsets & Hrange & Hcount & Hceil & Hoff & Hfull & Hlast & Hsum).
  assert (Hloop : loop_offsets (num_packets (self m)) b = offsets).
  { unfold loop_offsets. rewrite Hrange. reflexivity. }
  exists offsets. split; [exact Hrange|].
  split; [exact Hcount|]. split; [exact Hceil|]. split; [exact Hoff|].
  split; [exact Hfull|]. split; [exact Hlast|]. split; [exact Hsum|].
  split.
  - rewrite <- Hloop. apply send_batch_async_positive. exact Hb.
  - intros k i size Hk Hsize.
    change (map (current_batch_size b (num_packets (self m))) offsets)
      with (current_batch_size b (num_packets (self m)) <$> offsets) in Hsize.
    rewrite list_lookup_fmap, Hk in Hsize. injection Hsize as <-.
    apply (fold_step w b (entry w m) k i Hb).
    cbn [entry self set_start_time num_packets]. rewrite Hloop. exact Hk.
Qed.

Lemma batch_partition_witness :
  let w := example_world in
  let m := mkMachine (__init__ "http://h" 25 5 "GET" None None) [] 0 in
  exists offsets : list Z,
    range 0 25 10 = Returned offsets /\
    let count := Z.of_nat (length offsets) in
    let sizes := map (current_batch_size 10 25) offsets in
    let state k := after_folds w 10 (entry w m) k in
    count = ceil_div 25 10 /\
    10 * (count - 1) < 25 <= 10 * count /\
    (forall (k : nat) (i : Z),
        offsets !! k = Some i -> i = Z.of_nat k * 10) /\
    (forall k : nat, (S k < length offsets)%nat -> sizes !! k = Some 10) /\
    (forall i : Z,
        last offsets = Some i ->
        last sizes = Some (Z.min 10 (25 - i)) /\
        Z.min 10 (25 - i) = 25 - 10 * (count - 1)) /\
    sum sizes = 25 /\
    send_batch_async w 10 m
      = print_stats (finish w (state (length offsets))) /\
    (forall (k : nat) (i size : Z),
        offsets !! k = Some i -> sizes !! k = Some size ->
        batch w 10 i (state k) = (state (S k), Returned tt) /\
        sent_packets (self (state (S k)))
          = sent_packets (self (state k)) + size /\
        attempts_of (out (state (S k)))
          = (attempts_of (out (state k))
             ++ map (Z.add i) (indices size))%list /\
        progress_of (out (state (S k)))
          = (progress_of (out (state k)) ++ [(sent_packets (self (state k)) + size, 25)])%list).
Proof.
  apply (batch_partition example_world 10
           (mkMachine (__init__ "http://h" 25 5 "GET" None None) [] 0));
    cbn; lia.
Defined.

(** X1: a run of [send_batch_async] with a positive batch size on a
    non-negative total starts exactly the attempts 0, 1, ..., num_packets - 1,
    each once and in this order, whatever the batch size and whatever the
    network does. *)
Theorem attempts_in_order (w : world) (b : Z) (m : machine) :
  0 < b -> 0 <= num_packets (self m) ->
  attempts_of (out (fst (send_batch_async w b m)))
  = (attempts_of (out m) ++ indices (num_packets (self m)))%list.
Proof.
  intros Hb Hn.
  destruct (run_full w b m Hb Hn) as (_ & _ & _ & _ & Hatt & _).
  rewrite Hatt, range1_seq. reflexivity.
Qed.

Lemma attempts_in_order_witness :
  attempts_of
    (out (fst (send_batch_async example_world 3
                 (mkMachine (__init__ "http://h" 7 2 "GET" None None) [] 0))))
  = ([] ++ indices 7)%list.
Proof.
  apply (attempts_in_order example_world 3
           (mkMachine (__init__ "http://h" 7 2 "GET" None None) [] 0));
    cbn; lia.
Defined.

(** X2: such a run prints one progress line per batch, [ceil(num_packets /
    batch_size)] in all; the line of batch [k] (from 0) shows what the sender
    had sent before the run plus [min((k + 1) * batch_size, num_packets)],
    out of [num_packets]; so the last line shows the whole of [num_packets]
    added. *)
Theorem progress_lines (w : world) (b : Z) (m : machine) :
  0 < b -> 0 <= num_packets (self m) ->
  let n := num_packets (self m) in
  let shown := progress_of (out (fst (send_batch_async w b m))) in
  shown =
    (progress_of (out m)
     ++ map (λ k, (sent_packets (self m) + Z.min ((Z.of_nat k + 1) * b) n, n))
            (seq 0 (Z.to_nat (ceil_div n b))))%list /\
  (0 < n -> last shown = Some (sent_packets (self m) + n, n)).
Proof.
  intros Hb Hn. cbv zeta.
  destruct (run_full w b m Hb Hn) as (_ & _ & _ & _ & _ & Hprog & _).
  pose proof (range_positive_step (num_packets (self m)) b Hb) as Hr.
  rewrite range_loop_offsets in Hr by lia. injection Hr as Hoff.
  rewrite Hprog, Hoff, map_map.
  assert (Heq : forall k : nat,
             (sent_packets (self m)
              + Z.min (Z.of_nat k * b + b) (num_packets (self m)),
              num_packets (self m))
             = (sent_packets (self m)
                + Z.min ((Z.of_nat k + 1) * b) (num_packets (self m)),
                num_packets (self m))).
  { intros k. do 2 f_equal. lia. }
  rewrite (map_ext _ _ Heq). split; [reflexivity|].
  intros Hpos.
  pose proof (ceil_div_bounds (num_packets (self m)) b Hb) as Hceil.
  assert (Hc : 1 <= ceil_div (num_packets (self m)) b) by nia.
  destruct (Z.to_nat (ceil_div (num_packets (self m)) b)) as [|c] eqn:Ec;
    [lia|].
  rewrite seq_S, map_app, app_assoc. cbn [map Nat.add].
  rewrite last_snoc. do 2 f_equal.
  replace (Z.of_nat c + 1) with (ceil_div (num_packets (self m)) b) by lia.
  lia.
Qed.

Lemma progress_lines_witness :
  let w := example_world in
  let m := mkMachine (__init__ "http://h" 25 5 "GET" None None) [] 0 in
  let shown := progress_of (out (fst (send_batch_async w 10 m))) in
  shown =
    ([] ++ map (λ k, (0 + Z.min ((Z.of_nat k + 1) * 10) 25, 25))
               (seq 0 (Z.to_nat (ceil_div 25 10))))%list /\
  (0 < 25 -> last shown = Some (0 + 25, 25)).
Proof.
  apply (progress_lines example_world 10
           (mkMachine (__init__ "http://h" 25 5 "GET" None None) [] 0));
    cbn; lia.
Defined.

(** X3: such a run adds to [success_packets] the number of attempts that met
    a response with a status code below 400 (under a stored method [GET] or
    [POST]), and to [failed_packets] all the other attempts: failed calls,
    statuses of 400 and more, cancelled tasks, unsupported method.  Both
    additions lie between 0 and [num_packets]. *)
Theorem counters_count_successes (w : world) (b : Z) (m : machine) :
  0 < b -> 0 <= num_packets (self m) ->
  let n := num_packets (self m) in
  let good := successes w (self m) n in
  let s' := self (fst (send_batch_async w b m)) in
  success_packets s' = success_packets (self m) + good /\
  failed_packets s' = failed_packets (self m) + (n - good) /\
  0 <= good <= n.
Proof.
  intros Hb Hn. cbv zeta.
  destruct (run_counts w b m Hb Hn) as [Hsucc Hfail].
  split; [exact Hsucc|]. split; [exact Hfail|].
  apply successes_bounds. exact Hn.
Qed.

Lemma counters_count_successes_witness :
  let w := example_world in
  let m := mkMachine (__init__ "http://h" 7 2 "GET" None None) [] 0 in
  let good := successes w (self m) 7 in
  let s' := self (fst (send_batch_async w 3 m)) in
  (success_packets s' = 0 + good /\
   failed_packets s' = 0 + (7 - good) /\
   0 <= good <= 7) /\
  good = 4.
Proof.
  split; [|reflexivity].
  apply (counters_count_successes example_world 3
           (mkMachine (__init__ "http://h" 7 2 "GET" None None) [] 0));
    cbn; lia.
Defined.

(** X4: the batch size does not show in the result: against the same
    network, two runs from the same machine with two positive batch sizes
    leave the same three counters, start the same attempts and end the same
    way. *)
Theorem batch_size_irrelevant (w : world) (b b' : Z) (m : machine) :
  0 < b -> 0 < b' -> 0 <= num_packets (self m) ->
  let run := send_batch_async w b m in
  let run' := send_batch_async w b' m in
  sent_packets (self (fst run)) = sent_packets (self (fst run')) /\
  success_packets (self (fst run)) = success_packets (self (fst run')) /\
  failed_packets (self (fst run)) = failed_packets (self (fst run')) /\
  attempts_of (out (fst run)) = attempts_of (out (fst run')) /\
  snd run = snd run'.
Proof.
  intros Hb Hb' Hn. cbv zeta.
  destruct (run_full w b m Hb Hn)
    as (Hcfg & Hsent & Hsucc & Hfail & Hatt & _ & Hret & Hraise).
  destruct (run_full w b' m Hb' Hn)
    as (Hcfg' & Hsent' & Hsucc' & Hfail' & Hatt' & _ & Hret' & Hraise').
  split; [congruence|]. split; [congruence|]. split; [congruence|].
  split.
  - congruence.
  - destruct (decide (sent_packets (self m) + num_packets (self m) = 0))
      as [Hz|Hnz].
    + rewrite Hraise, Hraise' by exact Hz. reflexivity.
    + rewrite Hret, Hret' by exact Hnz. reflexivity.
Qed.

Lemma batch_size_irrelevant_witness :
  let m := mkMachine (__init__ "http://h" 7 2 "GET" None None) [] 0 in
  let run := send_batch_async example_world 3 m in
  let run' := send_batch_async example_world 10000 m in
  sent_packets (self (fst run)) = sent_packets (self (fst run')) /\
  success_packets (self (fst run)) = success_packets (self (fst run')) /\
  failed_packets (self (fst run)) = failed_packets (self (fst run')) /\
  attempts_of (out (fst run)) = attempts_of (out (fst run')) /\
  snd run = snd run'.
Proof.
  apply (batch_size_irrelevant example_world 3 10000
           (mkMachine (__init__ "http://h" 7 2 "GET" None None) [] 0));
    cbn; lia.
Defined.

(** X5: [send_batch_async] adds to the counters it finds, it does not reset
    them: a run adds [num_packets] to [sent_packets] and to [success_packets
    + failed_packets], so a second run on the same sender leaves
    [sent_packets] at twice [num_packets] above where it started. *)
Theorem counters_accumulate (w : world) (b : Z) (m : machine) :
  0 < b -> 0 <= num_packets (self m) ->
  let n := num_packets (self m) in
  let m1 := fst (send_batch_async w b m) in
  let m2 := fst (send_batch_async w b m1) in
  num_packets (self m1) = n /\
  sent_packets (self m1) = sent_packets (self m) + n /\
  success_packets (self m1) + failed_packets (self m1)
    = success_packets (self m) + failed_packets (self m) + n /\
  sent_packets (self m2) = sent_packets (self m) + 2 * n /\
  success_packets (self m2) + failed_packets (self m2)
    = success_packets (self m) + failed_packets (self m) + 2 * n.
Proof.
  intros Hb Hn. cbv zeta.
  destruct (run_full w b m Hb Hn) as (Hcfg & Hsent & _).
  destruct (run_counts w b m Hb Hn) as [Hsucc Hfail].
  assert (Hnum : num_packets (self (fst (send_batch_async w b m)))
                 = num_packets (self m)).
  { apply config_of_fields in Hcfg. tauto. }
  assert (Hn1 : 0 <= num_packets (self (fst (send_batch_async w b m))))
    by lia.
  destruct (run_full w b _ Hb Hn1) as (_ & Hsent2 & _).
  destruct (run_counts w b _ Hb Hn1) as [Hsucc2 Hfail2].
  rewrite Hnum in *. repeat split; lia.
Qed.

Lemma counters_accumulate_witness :
  let w := example_world in
  let m := mkMachine (__init__ "http://h" 7 2 "GET" None None) [] 0 in
  let m1 := fst (send_batch_async w 3 m) in
  let m2 := fst (send_batch_async w 3 m1) in
  num_packets (self m1) = 7 /\
  sent_packets (self m1) = 0 + 7 /\
  success_packets (self m1) + failed_packets (self m1) = 0 + 0 + 7 /\
  sent_packets (self m2) = 0 + 2 * 7 /\
  success_packets (self m2) + failed_packets (self m2) = 0 + 0 + 2 * 7.
Proof.
  apply (counters_accumulate example_world 3
           (mkMachine (__init__ "http://h" 7 2 "GET" None None) [] 0));
    cbn; lia.
Defined.

(** X6: with a positive batch size, a run on a freshly constructed sender
    returns exactly when [num_packets] is positive; for a zero or negative
    [num_packets] it starts no attempt, leaves the counters at zero and ends
    with the [ZeroDivisionError] of the report. *)
Theorem run_returns_iff (w : world) (u : string) (n c : Z) (meth : string)
    (d : option string) (h : option (gmap string string)) (b : Z)
    (out0 : list event) (ticks0 : nat) :
  0 < b ->
  let run := send_batch_async w b
               (mkMachine (__init__ u n c meth d h) out0 ticks0) in
  (snd run = Returned tt <-> 0 < n) /\
  (n <= 0 ->
   snd run = Raised ZeroDivisionError /\
   attempts_of (out (fst run)) = attempts_of out0 /\
   sent_packets (self (fst run)) = 0 /\
   success_packets (self (fst run)) = 0 /\
   failed_packets (self (fst run)) = 0).
Proof.
  intros Hb. cbv zeta.
  set (m := mkMachine (__init__ u n c meth d h) out0 ticks0).
  assert (Hneg : n <= 0 ->
            send_batch_async w b m =
            (mkMachine
               (set_end_time
                  (set_start_time (self m) (Some (clock w (ticks m))))
                  (Some (clock w (S (ticks m)))))
               (out m ++
                [Print (Starting (url (self m)));
                 Print (Sending (num_packets (self m)) (concurrency (self m)));
                 Connector (concurrency (self m));
                 Print StatsHeader;
                 Print (TargetURL (url (self m)));
                 Print (TotalSent 0)])
               (S (S (ticks m))),
             Raised ZeroDivisionError)).
  { intros Hn. apply run_without_batches; [lia| |reflexivity].
    apply loop_offsets_nonpositive; [exact Hb|exact Hn]. }
  split; [split|].
  - intros Hret. destruct (Z.lt_ge_cases 0 n) as [Hpos|Hle]; [exact Hpos|].
    rewrite Hneg in Hret by lia. discriminate Hret.
  - intros Hpos.
    destruct (run_full w b m Hb) as (_ & _ & _ & _ & _ & _ & Hret & _);
      [cbn; lia|].
    apply Hret. cbn. lia.
  - intros Hn. rewrite (Hneg Hn). cbn [fst snd out self].
    rewrite attempts_of_app. cbn. rewrite app_nil_r.
    repeat split; reflexivity.
Qed.

Lemma run_returns_iff_witness :
  let run := send_batch_async example_world 10
               (mkMachine (__init__ "http://h" (-4) 2 "GET" None None) [] 0) in
  (snd run = Returned tt <-> 0 < -4) /\
  (-4 <= 0 ->
   snd run = Raised ZeroDivisionError /\
   attempts_of (out (fst run)) = attempts_of [] /\
   sent_packets (self (fst run)) = 0 /\
   success_packets (self (fst run)) = 0 /\
   failed_packets (self (fst run)) = 0).
Proof.
  apply (run_returns_iff example_world "http://h" (-4) 2 "GET" None None 10
           [] 0).
  lia.
Defined.

(** X7: the two extremes of such a run.  When no attempt meets a response
    below 400 (every call fails or times out, or every status is 400 or
    more) the run adds nothing to [success_packets] and [num_packets] to
    [failed_packets]; that is so, whatever the network does, when the stored
    method is neither [GET] nor [POST].  When every attempt meets a response
    below 400, it adds [num_packets] to [success_packets] and nothing to
    [failed_packets]. *)
Theorem all_or_nothing (w : world) (b : Z) (m : machine) :
  0 < b -> 0 <= num_packets (self m) ->
  let n := num_packets (self m) in
  let s' := self (fst (send_batch_async w b m)) in
  ((forall k, 0 <= k < n -> succeeds w (self m) k = false) ->
   success_packets s' = success_packets (self m) /\
   failed_packets s' = failed_packets (self m) + n) /\
  (supported (self m) = false ->
   success_packets s' = success_packets (self m) /\
   failed_packets s' = failed_packets (self m) + n) /\
  ((forall k, 0 <= k < n -> succeeds w (self m) k = true) ->
   success_packets s' = success_packets (self m) + n /\
   failed_packets s' = failed_packets (self m)).
Proof.
  intros Hb Hn. cbv zeta.
  destruct (run_counts w b m Hb Hn) as [Hsucc Hfail].
  split; [|split].
  - intros Hnone.
    pose proof (successes_none w (self m) _ Hnone) as H0.
    rewrite H0 in Hsucc, Hfail. split; lia.
  - intros Hsup.
    assert (H0 : successes w (self m) (num_packets (self m)) = 0).
    { apply successes_none. intros k _. unfold succeeds, below_400.
      rewrite Hsup. reflexivity. }
    rewrite H0 in Hsucc, Hfail. split; lia.
  - intros Hall.
    pose proof (successes_all w (self m) _ Hn Hall) as H1.
    rewrite H1 in Hsucc, Hfail. split; lia.
Qed.

Lemma all_or_nothing_witness :
  let w := mkWorld (λ _, Throws TimedOut) (λ r, inject_Z (Z.of_nat r)) in
  let m := mkMachine (__init__ "http://h" 7 2 "GET" None None) [] 0 in
  let s' := self (fst (send_batch_async w 3 m)) in
  success_packets s' = 0 /\ failed_packets s' = 0 + 7.
Proof.
  destruct (all_or_nothing
              (mkWorld (λ _, Throws TimedOut) (λ r, inject_Z (Z.of_nat r))) 3
              (mkMachine (__init__ "http://h" 7 2 "GET" None None) [] 0))
    as [Hnone _].
  - lia.
  - cbn. lia.
  - apply Hnone. intros k _. reflexivity.
Defined.

(** ** The threaded dispatch *)

Lemma never_cancelled_Exception (w : world) (k : Z) :
  never_cancelled w -> raises_only_Exception (http w k).
Proof.
  intros Hw f Hf. destruct f; try reflexivity.
  exfalso. exact (Hw k Hf).
Qed.

Lemma executor_map_values (w : world) (s : PacketSender) (l : list Z) :
  never_cancelled w ->
  executor_map (map (λ k, send_single_packet s (http w k)) l)
  = Returned (map (λ k, VBool (succeeds w s k)) l).
Proof.
  intros Hw. induction l as [|k l IH]; [reflexivity|].
  cbn [map executor_map].
  rewrite send_single_packet_value by (apply never_cancelled_Exception, Hw).
  rewrite IH. reflexivity.
Qed.

Lemma sum_values_bools {A} (f : A -> bool) (l : list A) (acc : Z) :
  sum_values acc (map (λ k, VBool (f k)) l)
  = Returned (acc + Z.of_nat (length (List.filter f l))).
Proof.
  revert acc. induction l as [|k l IH]; intros acc.
  - cbn. f_equal. lia.
  - cbn [map sum_values List.filter]. destruct (f k); cbn.
    + rewrite IH. f_equal. cbn [length]. lia.
    + rewrite IH. f_equal. lia.
Qed.

(** The threaded dispatch when the pool can be built and no call is
    cancelled: the counters are set, not added to, and the report follows. *)
Lemma send_packets_threaded_spec (w : world) (m : machine) :
  0 < concurrency (self m) -> never_cancelled w ->
  let s := self m in
  let n := num_packets s in
  send_packets_threaded w m =
  print_stats
    (mkMachine
       (mkPacketSender (url s) n (concurrency s) (method s) (data s)
          (headers s) n (successes w s n) (n - successes w s n)
          (Some (clock w (ticks m))) (Some (clock w (S (ticks m)))))
       (out m
        ++ [Print (Starting (url s)); Print (Sending n (concurrency s))]
        ++ map Attempt (range1 n))
       (S (S (ticks m)))).
Proof.
  intros Hc Hw. cbv zeta. unfold send_packets_threaded, ThreadPoolExecutor.
  run_monad.
  destruct (Z.leb_spec (concurrency (self m)) 0) as [Hle|_]; [lia|]. cbn.
  rewrite (executor_map_values w _ _ Hw). cbn.
  rewrite sum_values_bools. cbn.
  unfold successes, indices. rewrite <- range1_seq.
  unfold set_end_time, set_failed_packets, set_success_packets,
    set_sent_packets, set_start_time, succeeds, below_400, supported. cbn.
  rewrite <- !app_assoc. reflexivity.
Qed.

Lemma attempts_of_map_Attempt (l : list Z) : attempts_of (map Attempt l) = l.
Proof.
  induction l as [|k l IH]; [reflexivity|]. cbn [map attempts_of].
  rewrite IH. reflexivity.
Qed.

(** What the threaded dispatch leaves behind and how it ends, when the pool
    can be built and no call is cancelled. *)
Lemma threaded_full (w : world) (m : machine) :
  0 < concurrency (self m) -> never_cancelled w ->
  let s := self m in
  let n := num_packets s in
  let run := send_packets_threaded w m in
  self (fst run) =
    mkPacketSender (url s) n (concurrency s) (method s) (data s)
      (headers s) n (successes w s n) (n - successes w s n)
      (Some (clock w (ticks m))) (Some (clock w (S (ticks m)))) /\
  attempts_of (out (fst run)) = (attempts_of (out m) ++ indices n)%list /\
  (n <> 0 -> snd run = Returned tt) /\
  (n = 0 -> snd run = Raised ZeroDivisionError).
Proof.
  intros Hc Hw. cbv zeta. rewrite send_packets_threaded_spec by assumption.
  cbv zeta.
  match goal with |- context [print_stats ?m1] => set (mt := m1) end.
  destruct (print_stats_silent mt) as [Hatt _].
  rewrite print_stats_self, Hatt.
  split; [reflexivity|]. split.
  { unfold mt. cbn [out].
    rewrite !attempts_of_app, attempts_of_map_Attempt, range1_seq.
    reflexivity. }
  split.
  - intros Hn.
    destruct (print_stats_spec mt (clock w (ticks m)) (clock w (S (ticks m))))
      as (pps & _ & ->); try reflexivity. exact Hn.
  - intros Hn.
    rewrite (print_stats_nothing_sent mt (clock w (ticks m))
               (clock w (S (ticks m)))); try reflexivity. exact Hn.
Qed.



(** X9: [send_packets_threaded] ends with [ValueError] exactly when
    [concurrency] is not positive (no call being cancelled): the pool
    refuses to be built, after the start time is stored and the two banner
    lines are printed, and then no call is submitted, the counters and the
    end time stay as they were and no report is printed. *)
Theorem threaded_pool_needs_workers (w : world) (m : machine) :
  never_cancelled w ->
  (snd (send_packets_threaded w m) = Raised ValueError
   <-> concurrency (self m) <= 0) /\
  (concurrency (self m) <= 0 ->
   send_packets_threaded w m =
   (mkMachine (set_start_time (self m) (Some (clock w (ticks m))))
      (out m ++ [Print (Starting (url (self m)));
                 Print (Sending (num_packets (self m))
                                (concurrency (self m)))])
      (S (ticks m)),
    Raised ValueError)).
Proof.
  intros Hw.
  assert (Hle : concurrency (self m) <= 0 ->
     send_packets_threaded w m =
     (mkMachine (set_start_time (self m) (Some (clock w (ticks m))))
        (out m ++ [Print (Starting (url (self m)));
                   Print (Sending (num_packets (self m))
                                  (concurrency (self m)))])
        (S (ticks m)),
      Raised ValueError)).
  { intros Hc. unfold send_packets_threaded, ThreadPoolExecutor. run_monad.
    destruct (Z.leb_spec (concurrency (self m)) 0) as [_|Hgt]; [|lia].
    cbn. rewrite <- !app_assoc. reflexivity. }
  split; [split|exact Hle].
  - intros Hr. destruct (Z.le_gt_cases (concurrency (self m)) 0) as [H|H];
      [exact H|].
    destruct (threaded_full w m ltac:(lia) Hw) as (_ & _ & Hret & Hraise).
    destruct (decide (num_packets (self m) = 0)) as [Hz|Hnz].
    + rewrite (Hraise Hz) in Hr. discriminate Hr.
    + rewrite (Hret Hnz) in Hr. discriminate Hr.
  - intros Hc. rewrite (Hle Hc). reflexivity.
Qed.

Lemma threaded_pool_needs_workers_witness :
  let w := example_world in
  let m := mkMachine (__init__ "http://h" 5 0 "GET" None None) [] 0 in
  (snd (send_packets_threaded w m) = Raised ValueError
   <-> concurrency (self m) <= 0) /\
  (concurrency (self m) <= 0 ->
   send_packets_threaded w m =
   (mkMachine (set_start_time (self m) (Some (clock w (ticks m))))
      (out m ++ [Print (Starting (url (self m)));
                 Print (Sending (num_packets (self m))
                                (concurrency (self m)))])
      (S (ticks m)),
    Raised ValueError)).
Proof.
  apply (threaded_pool_needs_workers example_world
           (mkMachine (__init__ "http://h" 5 0 "GET" None None) [] 0)).
  intros k. unfold example_world. cbn. destruct (Z.even k); discriminate.
Defined.

(** X10: the two dispatch strategies agree.  On a freshly constructed
    sender with [num_packets >= 0] and a positive [concurrency], against the
    same network and when no call is cancelled, [send_packets_threaded] and
    [send_batch_async] (with any positive batch size) leave the same three
    counters, start the same attempts and end the same way. *)
Theorem threaded_matches_async (w : world) (u : string) (n c : Z)
    (meth : string) (d : option string) (h : option (gmap string string))
    (b : Z) (out0 : list event) (ticks0 : nat) :
  0 <= n -> 0 < c -> 0 < b -> never_cancelled w ->
  let m := mkMachine (__init__ u n c meth d h) out0 ticks0 in
  let threaded := send_packets_threaded w m in
  let batched := send_batch_async w b m in
  sent_packets (self (fst threaded)) = sent_packets (self (fst batched)) /\
  success_packets (self (fst threaded))
    = success_packets (self (fst batched)) /\
  failed_packets (self (fst threaded))
    = failed_packets (self (fst batched)) /\
  attempts_of (out (fst threaded)) = attempts_of (out (fst batched)) /\
  snd threaded = snd batched.
Proof.
  intros Hn Hc Hb Hw. cbv zeta.
  set (m := mkMachine (__init__ u n c meth d h) out0 ticks0).
  destruct (threaded_full w m Hc Hw) as (Hself & Hatt & Hret & Hraise).
  destruct (run_full w b m Hb Hn)
    as (Hcfg' & Hsent' & _ & _ & Hatt' & _ & Hret' & Hraise').
  destruct (run_counts w b m Hb Hn) as [Hsucc' Hfail'].
  split; [rewrite Hsent', Hself; cbn; lia|].
  split; [rewrite Hsucc', Hself; cbn; lia|].
  split; [rewrite Hfail', Hself; cbn; lia|].
  split.
  - rewrite Hatt, Hatt', range1_seq. reflexivity.
  - change (num_packets (self m)) with n in *.
    change (sent_packets (self m)) with 0 in *.
    destruct (decide (n = 0)) as [Hz|Hnz].
    + rewrite (Hraise Hz), Hraise' by lia. reflexivity.
    + rewrite (Hret Hnz), Hret' by lia. reflexivity.
Qed.

Lemma threaded_matches_async_witness :
  let w := example_world in
  let m := mkMachine (__init__ "http://h" 7 2 "GET" None None) [] 0 in
  let threaded := send_packets_threaded w m in
  let batched := send_batch_async w 3 m in
  sent_packets (self (fst threaded)) = sent_packets (self (fst batched)) /\
  success_packets (self (fst threaded))
    = success_packets (self (fst batched)) /\
  failed_packets (self (fst threaded))
    = failed_packets (self (fst batched)) /\
  attempts_of (out (fst threaded)) = attempts_of (out (fst batched)) /\
  snd threaded = snd batched.
Proof.
  apply (threaded_matches_async example_world "http://h" 7 2 "GET" None None
           3 [] 0); try lia.
  intros k. unfold example_world. cbn. destruct (Z.even k); discriminate.
Defined.

(** ** The report, the attempts and the command line *)

(** X11: [print_stats] never changes the sender and, on a sender whose
    three counters are within the range of a [float], ends in one of three
    ways.  On a sender that has not been through a dispatch (start or end
    time still [None]) it raises [TypeError] before printing anything; with
    both times set and nothing sent it prints three lines and raises
    [ZeroDivisionError]; with both times set and something sent it prints
    its eight lines and returns. *)
Theorem print_stats_outcomes (m : machine) :
  float_range (sent_packets (self m)) ->
  float_range (success_packets (self m)) ->
  float_range (failed_packets (self m)) ->
  self (fst (print_stats m)) = self m /\
  (start_time (self m) = None \/ end_time (self m) = None ->
   print_stats m = (m, Raised TypeError)) /\
  (forall t0 t1 : Q,
      start_time (self m) = Some t0 -> end_time (self m) = Some t1 ->
      (sent_packets (self m) = 0 ->
       snd (print_stats m) = Raised ZeroDivisionError /\
       out (fst (print_stats m)) =
         (out m ++ [Print StatsHeader; Print (TargetURL (url (self m)));
                    Print (TotalSent 0)])%list) /\
      (sent_packets (self m) <> 0 ->
       snd (print_stats m) = Returned tt /\
       exists report : list event,
         out (fst (print_stats m)) = (out m ++ report)%list /\
         length report = 8%nat /\
         last report = Some (Print StatsFooter))).
Proof.
  intros _ _ _.
  split; [apply print_stats_self|]. split.
  - intros Hnone. unfold print_stats, elapsed. run_monad.
    destruct m as [s o t]. cbn in *.
    destruct Hnone as [-> | ->]; [destruct (end_time s)|]; reflexivity.
  - intros t0 t1 Hs He. split.
    + intros Hz. rewrite (print_stats_nothing_sent m t0 t1 Hs He Hz).
      split; reflexivity.
    + intros Hnz.
      destruct (print_stats_spec m t0 t1 Hs He Hnz) as (pps & _ & ->).
      split; [reflexivity|]. eexists. cbn [fst out].
      split; [reflexivity|]. split; reflexivity.
Qed.

Lemma print_stats_outcomes_witness :
  let m := mkMachine (__init__ "http://h" 5 2 "GET" None None) [] 0 in
  print_stats m = (m, Raised TypeError).
Proof.
  apply (print_stats_outcomes
           (mkMachine (__init__ "http://h" 5 2 "GET" None None) [] 0)).
  - unfold float_range. vm_compute. reflexivity.
  - unfold float_range. vm_compute. reflexivity.
  - unfold float_range. vm_compute. reflexivity.
  - left. reflexivity.
Defined.

(** X13: the synchronous and the asynchronous attempt of one sender behave
    alike on one behaviour of the network when the stored method is [GET]
    or [POST]: same value returned, or same exception let through.  With any
    other stored method neither looks at the network: the synchronous one
    returns [False] (its [UnboundLocalError] is caught by its own handler),
    the asynchronous one returns [None]; both are failures for the count. *)
Theorem attempts_agree (s : PacketSender) (h : http_behaviour) :
  (supported s = true ->
   send_single_packet s h = send_single_packet_async s h) /\
  (supported s = false ->
   send_single_packet s h = Returned (VBool false) /\
   send_single_packet_async s h = Returned VNone) /\
  (forall v v' : value,
      send_single_packet s h = Returned v ->
      send_single_packet_async s h = Returned v' ->
      outcome_of v = outcome_of v').
Proof.
  destruct (supported s) eqn:Hsup.
  - assert (Heq : send_single_packet s h = send_single_packet_async s h).
    { unfold supported in Hsup.
      unfold send_single_packet, send_single_packet_async.
      destruct (method s =? "GET")%string;
        [|destruct (method s =? "POST")%string; [|discriminate Hsup]].
      all: destruct h as [status|[]]; cbn; try reflexivity.
      all: destruct (status <? 400); reflexivity. }
    split; [intros _; exact Heq|]. split; [discriminate|].
    intros v v' H1 H2. rewrite Heq in H1. congruence.
  - assert (Hval : send_single_packet s h = Returned (VBool false) /\
                   send_single_packet_async s h = Returned VNone).
    { unfold supported in Hsup.
      unfold send_single_packet, send_single_packet_async.
      destruct (method s =? "GET")%string; [discriminate Hsup|].
      destruct (method s =? "POST")%string; [discriminate Hsup|].
      split; reflexivity. }
    split; [discriminate|]. split; [intros _; exact Hval|].
    destruct Hval as [Hs Ha]. intros v v' H1 H2.
    rewrite Hs in H1. rewrite Ha in H2.
    injection H1 as <-. injection H2 as <-. reflexivity.
Qed.

Lemma attempts_agree_witness :
  let s := __init__ "http://h" 1 1 "put" None None in
  send_single_packet s (Responds 200) = Returned (VBool false) /\
  send_single_packet_async s (Responds 200) = Returned VNone.
Proof.
  apply (attempts_agree (__init__ "http://h" 1 1 "put" None None)
           (Responds 200)).
  reflexivity.
Defined.

(** An accepted command line starts the run. *)
Lemma main_starts (w : world) (a : argv) :
  In (default "GET" (arg_method a)) method_choices ->
  exists rest : list event,
    fst (main w a) = Print (Starting (arg_url a)) :: rest.
Proof.
  intros Hin. unfold main. rewrite parse_args_choice by exact Hin.
  cbn [ns_url ns_num_packets ns_concurrency ns_method ns_data ns_batch_size].
  match goal with
  | |- context [send_batch_async w ?b ?m] =>
      destruct (send_batch_async_starts w b m) as [rest Hrest];
      destruct (send_batch_async w b m) as [m' r]
  end.
  cbn [fst] in *. rewrite Hrest. cbn. eexists. reflexivity.
Qed.

(** X14: the command line is stricter about the method than the class.  For
    a method given with [-m] that spells [GET] or [POST] up to case, a sender
    constructed with it is a working [GET] or [POST] sender, but [main]
    rejects it (nothing output, parser exit) unless it is written in
    uppercase. *)
Theorem cli_method_case_sensitive (w : world) (a : argv) (meth : string) :
  arg_method a = Some meth ->
  same_ignoring_case meth "GET" \/ same_ignoring_case meth "POST" ->
  (forall (u : string) (n c : Z) (d : option string)
          (h : option (gmap string string)),
      supported (__init__ u n c meth d h) = true) /\
  (main w a = ([], Raised SystemExit) <-> meth <> upper meth).
Proof.
  intros Hm Hcase.
  assert (Hup : upper meth = "GET" \/ upper meth = "POST").
  { destruct Hcase as [H|H]; apply upper_same_ignoring_case in H;
      [left|right]; exact H. }
  split.
  - intros u n c d h. unfold supported, __init__. cbn [method].
    destruct Hup as [-> | ->]; reflexivity.
  - assert (Hchoice : In meth method_choices <-> meth = upper meth).
    { unfold method_choices. cbn [In]. split.
      - intros [<- | [<- | []]]; reflexivity.
      - intros ->. destruct Hup as [-> | ->]; tauto. }
    split.
    + intros Hrej Heq. apply Hchoice in Heq.
      destruct (main_starts w a) as [rest Hrest];
        [rewrite Hm; exact Heq|].
      rewrite Hrej in Hrest. discriminate Hrest.
    + intros Hne. unfold main. rewrite parse_args_no_choice; [reflexivity|].
      rewrite Hm. cbn [default]. rewrite Hchoice. exact Hne.
Qed.

Lemma cli_method_case_sensitive_witness :
  let a := mkArgv "http://h" (Some 3) None (Some "get") None None in
  (forall (u : string) (n c : Z) (d : option string)
          (h : option (gmap string string)),
      supported (__init__ u n c "get" d h) = true) /\
  (main example_world a = ([], Raised SystemExit) <-> "get" <> upper "get").
Proof.
  apply (cli_method_case_sensitive example_world
           (mkArgv "http://h" (Some 3) None (Some "get") None None) "get").
  - reflexivity.
  - left. reflexivity.
Defined.

(** The output of a run that has something to report ends with the eight
    lines of the report, filled from the sender the run leaves. *)
Lemma run_report (w : world) (b : Z) (m : machine) :
  0 < b -> 0 <= num_packets (self m) ->
  sent_packets (self m) + num_packets (self m) <> 0 ->
  let run := send_batch_async w b m in
  let s' := self (fst run) in
  exists (before : list event) (duration pps : Q),
    out (fst run) =
    (before ++
     [Print StatsHeader;
      Print (TargetURL (url s'));
      Print (TotalSent (sent_packets s'));
      Print (Successful (success_packets s')
               (inject_Z (success_packets s') / inject_Z (sent_packets s')
                * 100)%Q);
      Print (Failed (failed_packets s')
               (inject_Z (failed_packets s') / inject_Z (sent_packets s')
                * 100)%Q);
      Print (TotalTime duration);
      Print (AverageSpeed pps);
      Print StatsFooter])%list.
Proof.
  intros Hb Hn Hnz. cbv zeta.
  rewrite (send_batch_async_positive w b m Hb).
  destruct (whole_loop_counters w b (entry w m) Hb Hn) as (Hcfg & Hsent & _).
  apply config_of_fields in Hcfg. destruct Hcfg as [_ Hstart].
  set (m1 := after_folds w b (entry w m) _) in *.
  change (after_folds w b (entry w m)
            (length (loop_offsets (num_packets (self m)) b))) with m1.
  cbn in Hsent, Hstart.
  destruct (print_stats_spec (finish w m1) (clock w (ticks m))
              (clock w (ticks m1))) as (pps & _ & Hrun);
    [exact Hstart|reflexivity|cbn; lia|].
  rewrite Hrun. cbn [fst self out finish].
  exists (out m1), (clock w (ticks m1) - clock w (ticks m))%Q, pps.
  reflexivity.
Qed.

(** X15: [main] end to end.  For a command line with an accepted method, a
    positive number of packets and a positive batch size, [main] returns,
    starts exactly the attempts 0 .. n - 1 in order, and its output ends
    with the report, which shows [n] as the total sent, the number of
    attempts that met a response below 400 as successful and the rest as
    failed. *)
Theorem main_reports (w : world) (a : argv) :
  let meth := default "GET" (arg_method a) in
  let n := default 1000000 (arg_num_packets a) in
  let c := default 100 (arg_concurrency a) in
  let b := default 10000 (arg_batch_size a) in
  let sender := __init__ (arg_url a) n c meth (arg_data a) None in
  let good := successes w sender n in
  In meth method_choices -> 0 < n -> 0 < b ->
  snd (main w a) = Returned tt /\
  attempts_of (fst (main w a)) = indices n /\
  exists (before : list event) (duration pps : Q),
    fst (main w a) =
    (before ++
     [Print StatsHeader;
      Print (TargetURL (arg_url a));
      Print (TotalSent n);
      Print (Successful good (inject_Z good / inject_Z n * 100)%Q);
      Print (Failed (n - good) (inject_Z (n - good) / inject_Z n * 100)%Q);
      Print (TotalTime duration);
      Print (AverageSpeed pps);
      Print StatsFooter])%list.
Proof.
  cbv zeta. intros Hin Hn Hb. unfold main.
  rewrite parse_args_choice by exact Hin.
  cbn [ns_url ns_num_packets ns_concurrency ns_method ns_data ns_batch_size].
  set (n := default 1000000 (arg_num_packets a)) in *.
  set (b := default 10000 (arg_batch_size a)) in *.
  set (m := mkMachine _ [] 0).
  assert (Hn0 : 0 <= num_packets (self m)) by (cbn; lia).
  destruct (run_full w b m Hb Hn0)
    as (Hcfg & Hsent & _ & _ & Hatt & _ & Hret & _).
  destruct (run_counts w b m Hb Hn0) as [Hsucc Hfail].
  destruct (run_report w b m Hb Hn0) as (before & duration & pps & Hout);
    [cbn; lia|].
  assert (Hurl : url (self (fst (send_batch_async w b m))) = arg_url a).
  { unfold config_of in Hcfg. injection Hcfg as Hurl _. exact Hurl. }
  rewrite Hurl, Hsent, Hsucc, Hfail in Hout.
  cbn [m self num_packets sent_packets success_packets failed_packets
       __init__] in Hout, Hret, Hatt.
  rewrite !Z.add_0_l in Hout.
  destruct (send_batch_async w b m) as [m' r]. cbn [fst snd] in *.
  split; [apply Hret; lia|].
  split; [rewrite Hatt, range1_seq; reflexivity|].
  exists before, duration, pps. exact Hout.
Qed.

Lemma main_reports_witness :
  let w := example_world in
  let a := mkArgv "http://h" (Some 7) (Some 2) None None (Some 3) in
  let sender := __init__ "http://h" 7 2 "GET" None None in
  let good := successes w sender 7 in
  snd (main w a) = Returned tt /\
  attempts_of (fst (main w a)) = indices 7 /\
  exists (before : list event) (duration pps : Q),
    fst (main w a) =
    (before ++
     [Print StatsHeader;
      Print (TargetURL "http://h");
      Print (TotalSent 7);
      Print (Successful good (inject_Z good / inject_Z 7 * 100)%Q);
      Print (Failed (7 - good) (inject_Z (7 - good) / inject_Z 7 * 100)%Q);
      Print (TotalTime duration);
      Print (AverageSpeed pps);
      Print StatsFooter])%list.
Proof.
  apply (main_reports example_world
           (mkArgv "http://h" (Some 7) (Some 2) None None (Some 3))).
  - left. reflexivity.
  - cbn. lia.
  - cbn. lia.
Defined.
